(** * Attribution analytics dashboard: attribution, funnel and tracking store

    A shallow embedding of the TypeScript route handlers of the dashboard:

    - [calculateAttributionModels], [calculateDaysToPurchase] and
      [calculateSessionsToConversion] of the Shopify conversion route,
    - [processConversion] of the same route and [handleOrderCreate],
      [handleOrderUpdate] of the Shopify webhook route,
    - [handleSessionStart] of the tracking route,
    - [getFunnelData] of the analytics route.

    Numbers.  A JavaScript number is an IEEE-754 binary64 value.  The
    arithmetic of the handlers is written once, over an interface [Number],
    and read in two ways: over Rocq's primitive floats (the arithmetic the
    program runs, evaluated by computation) and over the real numbers (the
    exact arithmetic the heuristics are designed in).  Integer-valued
    quantities (array lengths, indices, millisecond clock readings, visitor
    counts) are kept in [nat] and [Z]; binary64 represents them exactly up to
    2^53, far above any clock reading or array length.  [Math.pow] is not a
    primitive float operation, so it is a parameter of the embedding; over
    the reals it is [Rpower].

    Clock.  Every handler that calls [Date.now()] or [new Date()] takes the
    clock reading [now] as an argument (one reading per invocation).

    Store.  The Prisma client is modelled by an explicit [Store] value that
    the handlers transform; a rejected write is a [Thrown] outcome. *)

From Stdlib Require Import ZArith List Reals Lra Lia Floats.
From stdpp Require Import gmap strings pretty.

Set Warnings "-inexact-float".

(** ** JavaScript numbers *)

Class Number (num : Type) : Type := {
  num_of_Z : Z -> num;            (* an integer-valued number *)
  lit_0_4 : num;                  (* the literal 0.4 *)
  lit_0_2 : num;                  (* the literal 0.2 *)
  nadd : num -> num -> num;       (* a + b *)
  nmul : num -> num -> num;       (* a * b *)
  ndiv : num -> num -> num;       (* a / b *)
  nneg : num -> num;              (* -a *)
  falsy : num -> bool             (* 0 and NaN are falsy *)
}.

(** binary64, as the program runs. *)
Definition float_of_Z (z : Z) : float :=
  if (z <? 0)%Z then PrimFloat.opp (PrimFloat.of_uint63 (Uint63.of_Z (- z)))
  else PrimFloat.of_uint63 (Uint63.of_Z z).

#[export] Instance float_Number : Number float := {|
  num_of_Z := float_of_Z;
  lit_0_4 := 0.4%float;
  lit_0_2 := 0.2%float;
  nadd := PrimFloat.add;
  nmul := PrimFloat.mul;
  ndiv := PrimFloat.div;
  nneg := PrimFloat.opp;
  falsy := fun x => (PrimFloat.eqb x 0 || negb (PrimFloat.eqb x x))%bool
|}.

(** Exact arithmetic. *)
#[export] Instance R_Number : Number R := {|
  num_of_Z := IZR;
  lit_0_4 := (4 / 10)%R;
  lit_0_2 := (2 / 10)%R;
  nadd := Rplus;
  nmul := Rmult;
  ndiv := Rdiv;
  nneg := Ropp;
  falsy := fun x => if Req_dec_T x 0 then true else false
|}.

(** ** Arrays *)

(** [Array.prototype.map] with the callback's [(element, index)] arguments. *)
Fixpoint Array_map_from {A B : Type} (start : nat) (f : A -> nat -> B)
    (l : list A) : list B :=
  match l with
  | [] => []
  | x :: rest => f x start :: Array_map_from (S start) f rest
  end.

Definition Array_map {A B : Type} (f : A -> nat -> B) (l : list A) : list B :=
  Array_map_from 0 f l.

(** [Array.prototype.reduce] with an initial value. *)
Definition Array_reduce {A B : Type} (f : B -> A -> B) (init : B)
    (l : list A) : B :=
  fold_left f l init.

(** [a || d] on an optional string: [undefined], [null] and the empty string
    are falsy. *)
Definition or_else (a : option string) (d : string) : string :=
  match a with
  | Some s => if decide (s = "") then d else s
  | None => d
  end.

(** ** Attribution calculator *)

(** A touchpoint of the customer journey, as the conversion route reads it. *)
Record Touchpoint : Type := {
  tp_session_id : option string;
  tp_utm_source : option string;
  tp_utm_medium : option string;
  tp_utm_campaign : option string;
  tp_timestamp : Z;                            (* milliseconds *)
  tp_other : list (string * string)            (* any further fields *)
}.

(** [Math.round(a / b)] for integers [a] and [b > 0]: the quotient rounded to
    the nearest integer, halves upwards. *)
Definition Math_round_div (a b : Z) : Z := ((2 * a + b) / (2 * b))%Z.

Section Attribution.
Context {num : Type} `{Number num}.
Variable Math_pow : num -> num -> num.

(** [{ ...tp, attribution_weight: w }] *)
Record Weighted : Type := {
  touchpoint : Touchpoint;
  attribution_weight : num
}.

Record AttributionModels : Type := {
  first_click : option Touchpoint;
  last_click : option Touchpoint;
  linear : list Weighted;
  time_decay : list Weighted;
  position_based : list Weighted
}.

Definition halfLife : Z := 7 * 24 * 60 * 60 * 1000.

(** The callback of the [timeDecayWeights] map. *)
Definition timeDecayWeight (now : Z) (tp : Touchpoint) : num :=
  let timeDiff := (now - tp_timestamp tp)%Z in
  Math_pow (num_of_Z 2) (ndiv (nneg (num_of_Z timeDiff)) (num_of_Z halfLife)).

Definition timeDecayWeights (now : Z) (customerJourney : list Touchpoint)
    : list num :=
  map (timeDecayWeight now) customerJourney.

(** The callback of the [positionBased] map. *)
Definition positionWeight (journeyLength : nat) (index : nat) : num :=
  if (journeyLength =? 1)%nat then num_of_Z 1
  else if (index =? 0)%nat then lit_0_4
  else if (Z.of_nat index =? Z.of_nat journeyLength - 1)%Z then lit_0_4
  else ndiv lit_0_2 (num_of_Z (Z.max 1 (Z.of_nat journeyLength - 2))).

(** The constant [linear]: equal weight for every touchpoint. *)
Definition linear_model (customerJourney : list Touchpoint)
    : list Weighted :=
  let linearWeight :=
    ndiv (num_of_Z 1) (num_of_Z (Z.of_nat (length customerJourney))) in
  map (fun tp => {| touchpoint := tp; attribution_weight := linearWeight |})
      customerJourney.

(** The constant [totalTimeDecayWeight]. *)
Definition totalTimeDecayWeight (now : Z) (customerJourney : list Touchpoint)
    : num :=
  Array_reduce (fun sum weight => nadd sum weight) (num_of_Z 0)
               (timeDecayWeights now customerJourney).

(** The constant [timeDecay].  [timeDecayWeights[index]] is read at the
    index of the touchpoint being mapped, which is always in range. *)
Definition timeDecay (now : Z) (customerJourney : list Touchpoint)
    : list Weighted :=
  Array_map
    (fun tp index =>
       {| touchpoint := tp;
          attribution_weight :=
            ndiv (nth index (timeDecayWeights now customerJourney)
                      (num_of_Z 0))
                 (totalTimeDecayWeight now customerJourney) |})
    customerJourney.

(** The constant [positionBased]. *)
Definition positionBased (customerJourney : list Touchpoint)
    : list Weighted :=
  Array_map
    (fun tp index =>
       {| touchpoint := tp;
          attribution_weight :=
            positionWeight (length customerJourney) index |})
    customerJourney.

(** The result for a journey without touchpoints. *)
Definition no_attribution : AttributionModels :=
  {| first_click := None; last_click := None;
     linear := []; time_decay := []; position_based := [] |}.

(** [customerJourney] is [None] when the request carries no journey
    ([undefined] or [null]). *)
Definition calculateAttributionModels (now : Z)
    (customerJourney : option (list Touchpoint)) : AttributionModels :=
  match customerJourney with
  | None | Some [] => no_attribution
  | Some customerJourney =>
      let firstClick := nth_error customerJourney 0 in
      let lastClick :=
        nth_error customerJourney (length customerJourney - 1) in
      {| first_click := firstClick; last_click := lastClick;
         linear := linear_model customerJourney;
         time_decay := timeDecay now customerJourney;
         position_based := positionBased customerJourney |}
  end.

Definition calculateDaysToPurchase
    (customerJourney : option (list Touchpoint)) : option Z :=
  match customerJourney with
  | None | Some [] => None
  | Some (first :: rest) =>
      let firstTouch := tp_timestamp first in
      let lastTouch := tp_timestamp (List.last rest first) in
      Some (Math_round_div (lastTouch - firstTouch) (1000 * 60 * 60 * 24))
  end.

Definition calculateSessionsToConversion
    (customerJourney : option (list Touchpoint)) : Z :=
  match customerJourney with
  | None | Some [] => 0
  | Some customerJourney =>
      let uniqueSessionIds : gset (option string) :=
        list_to_set (map tp_session_id customerJourney) in
      Z.of_nat (size uniqueSessionIds)
  end.

(** The total credit a model hands out: the weights added up from 0. *)
Definition sum_weights (l : list Weighted) : num :=
  Array_reduce (fun sum weight => nadd sum weight) (num_of_Z 0)
               (map attribution_weight l).

End Attribution.

Arguments Weighted num : clear implicits.
Arguments AttributionModels num : clear implicits.

(** ** The persistent store *)

(** The context columns of a session row, captured from the first
    [session_start] payload. *)
Record SessionContext : Type := {
  userAgent : option string;   ipAddress : option string;
  deviceType : option string;  browser : option string;
  os : option string;          country : option string;
  timezone : option string;    language : option string;
  utmSource : option string;   utmMedium : option string;
  utmCampaign : option string; utmTerm : option string;
  utmContent : option string;  referrer : option string;
  landingPage : option string;
  fbclid : option string;      gclid : option string;
  ttclid : option string
}.

Record Session : Type := {
  s_sessionId : string;
  s_visitorId : string;
  s_createdAt : Z;
  s_updatedAt : Z;
  s_expiresAt : Z;
  s_context : SessionContext
}.

Record Event : Type := {
  e_sessionId : string;
  e_eventName : string;
  e_createdAt : Z;
  e_timestamp : Z;
  e_pageUrl : option string;
  e_eventData : option string
}.

(** The [attribution] object of a conversion request. *)
Record Attribution : Type := {
  a_session_id : option string;
  a_utm_source : option string;
  a_utm_medium : option string;
  a_utm_campaign : option string
}.

Inductive PrismaError : Type :=
  | UniqueConstraintFailed (column : string)
  | ForeignKeyConstraintFailed (column : string).

Section Store.
Context {num : Type} `{Number num}.
Variable Math_pow : num -> num -> num.

(** The [attributionData] column, before [JSON.stringify]. *)
Record AttributionData : Type := {
  customer_journey : option (list Touchpoint);
  attribution_models : AttributionModels num;
  original_attribution : option Attribution
}.

Record Conversion : Type := {
  c_id : nat;                               (* generated primary key *)
  c_sessionId : string;
  c_conversionId : string;
  c_createdAt : Z;
  c_updatedAt : option Z;
  c_orderId : option string;
  c_orderNumber : option string;
  c_totalValue : num;
  c_currency : string;
  c_itemCount : option Z;
  c_customerId : option string;
  c_email : option string;
  c_firstClickUtmSource : option string;
  c_firstClickUtmMedium : option string;
  c_firstClickUtmCampaign : option string;
  c_lastClickUtmSource : option string;
  c_lastClickUtmMedium : option string;
  c_lastClickUtmCampaign : option string;
  c_touchpointCount : option Z;
  c_daysToPurchase : option Z;
  c_sessionsToConversion : option Z;
  c_attributionData : option AttributionData
}.

Record LineItem : Type := {
  li_conversionId : nat;                    (* the conversion's [id] *)
  li_productId : option string;
  li_variantId : option string;
  li_sku : option string;
  li_productName : option string;
  li_category : option string;
  li_quantity : Z;
  li_price : num
}.

(** The tables the handlers below read and write.  The unique index on
    [sessions.sessionId] makes [sessions] a map; [conversions] keeps its
    rows in insertion order.  The campaign and daily-metric rollups, which
    the handlers upsert at the very end inside their own [try]/[catch], are
    not part of this state. *)
Record Store : Type := {
  sessions : gmap string Session;
  conversions : list Conversion;
  lineItems : list LineItem;
  events : list Event;
  next_id : nat                             (* source of generated keys *)
}.

Inductive Outcome (A : Type) : Type :=
  | Returned (db : Store) (value : A)
  | Thrown (db : Store) (error : PrismaError).
Arguments Returned {A} db value.
Arguments Thrown {A} db error.

(** *** Tracking route *)

Record SessionStartData : Type := {
  d_sessionId : string;
  d_visitorId : string;
  d_context : SessionContext
}.

Definition set_sessions (db : Store) (m : gmap string Session) : Store :=
  {| sessions := m; conversions := conversions db;
     lineItems := lineItems db; events := events db;
     next_id := next_id db |}.

(** [prisma.session.upsert]: the [update] branch writes [updatedAt] and
    [expiresAt] only; the [create] branch writes the whole row. *)
Definition handleSessionStart (now : Z) (data : SessionStartData)
    (db : Store) : Store :=
  let sessionId := d_sessionId data in
  match sessions db !! sessionId with
  | Some session =>
      set_sessions db
        (<[sessionId :=
             {| s_sessionId := s_sessionId session;
                s_visitorId := s_visitorId session;
                s_createdAt := s_createdAt session;
                s_updatedAt := now;
                s_expiresAt := now + 30 * 60 * 1000;
                s_context := s_context session |}]> (sessions db))
  | None =>
      set_sessions db
        (<[sessionId :=
             {| s_sessionId := sessionId;
                s_visitorId := d_visitorId data;
                s_createdAt := now;
                s_updatedAt := now;
                s_expiresAt := now + 30 * 60 * 1000;
                s_context := d_context data |}]> (sessions db))
  end.

(** *** Writes to the [conversions] and [conversion_line_items] tables *)

(** [prisma.conversion.create].  The schema has a unique index on
    [conversionId] (none on [orderId]) and a foreign key from [sessionId]
    to [sessions.sessionId]; [data] receives the generated [id]. *)
Definition conversion_create (data : nat -> Conversion) (db : Store)
    : Outcome Conversion :=
  let row := data (next_id db) in
  if decide (c_conversionId row ∈ map c_conversionId (conversions db))
  then Thrown db (UniqueConstraintFailed "conversionId")
  else match sessions db !! c_sessionId row with
       | None => Thrown db (ForeignKeyConstraintFailed "sessionId")
       | Some _ =>
           Returned {| sessions := sessions db;
                       conversions := conversions db ++ [row];
                       lineItems := lineItems db;
                       events := events db;
                       next_id := S (next_id db) |} row
       end.

(** [prisma.conversion.updateMany({ where: { orderId }, data })] *)
Definition conversion_updateMany (orderId : string)
    (data : Conversion -> Conversion) (db : Store) : Store :=
  {| sessions := sessions db;
     conversions :=
       map (fun c => if decide (c_orderId c = Some orderId) then data c
                     else c) (conversions db);
     lineItems := lineItems db;
     events := events db;
     next_id := next_id db |}.

(** [prisma.conversionLineItem.create] and [createMany] *)
Definition lineItem_createMany (rows : list LineItem) (db : Store) : Store :=
  {| sessions := sessions db;
     conversions := conversions db;
     lineItems := lineItems db ++ rows;
     events := events db;
     next_id := next_id db |}.

(** *** Shopify conversion route *)

Record OrderLineItem : Type := {
  oli_product_id : option string;
  oli_variant_id : option string;
  oli_sku : option string;
  oli_name : option string;
  oli_title : option string;
  oli_category : option string;
  oli_quantity : option Z;
  oli_price : option num
}.

Record OrderData : Type := {
  order_id : string;
  order_number : option string;
  total_price : num;
  currency : option string;
  line_items : option (list OrderLineItem);
  customer_id : option string;
  email : option string
}.

(** [a?.length || 0] *)
Definition length_or_0 {A : Type} (a : option (list A)) : Z :=
  match a with Some l => Z.of_nat (length l) | None => 0 end.

Definition processConversion (now : Z) (orderData : OrderData)
    (attribution : option Attribution)
    (customerJourney : option (list Touchpoint)) (db : Store)
    : Outcome Conversion :=
  let attributionModels :=
    calculateAttributionModels Math_pow now customerJourney in
  match
    conversion_create
      (fun id =>
         {| c_id := id;
            c_sessionId :=
              or_else (attribution ≫= a_session_id)
                      ("unknown_" +:+ pretty now);
            c_conversionId :=
              "conv_" +:+ order_id orderData +:+ "_" +:+ pretty now;
            c_createdAt := now;
            c_updatedAt := None;
            c_orderId := Some (order_id orderData);
            c_orderNumber := order_number orderData;
            c_totalValue := total_price orderData;
            c_currency := or_else (currency orderData) "USD";
            c_itemCount := Some (length_or_0 (line_items orderData));
            c_customerId := customer_id orderData;
            c_email := email orderData;
            c_firstClickUtmSource :=
              first_click attributionModels ≫= tp_utm_source;
            c_firstClickUtmMedium :=
              first_click attributionModels ≫= tp_utm_medium;
            c_firstClickUtmCampaign :=
              first_click attributionModels ≫= tp_utm_campaign;
            c_lastClickUtmSource :=
              last_click attributionModels ≫= tp_utm_source;
            c_lastClickUtmMedium :=
              last_click attributionModels ≫= tp_utm_medium;
            c_lastClickUtmCampaign :=
              last_click attributionModels ≫= tp_utm_campaign;
            c_touchpointCount := Some (length_or_0 customerJourney);
            c_daysToPurchase := calculateDaysToPurchase customerJourney;
            c_sessionsToConversion :=
              Some (calculateSessionsToConversion customerJourney);
            c_attributionData :=
              Some {| customer_journey := customerJourney;
                      attribution_models := attributionModels;
                      original_attribution := attribution |} |})
      db
  with
  | Thrown db error => Thrown db error
  | Returned db conversion =>
      let db :=
        match line_items orderData with
        | Some (item :: items) =>
            lineItem_createMany
              (map (fun item =>
                      {| li_conversionId := c_id conversion;
                         li_productId := oli_product_id item;
                         li_variantId := oli_variant_id item;
                         li_sku := oli_sku item;
                         li_productName :=
                           match oli_name item with
                           | Some n => if decide (n = "") then oli_title item
                                       else Some n
                           | None => oli_title item
                           end;
                         li_category := oli_category item;
                         li_quantity :=
                           match oli_quantity item with
                           | Some q => if decide (q = 0%Z) then 1%Z else q
                           | None => 1%Z
                           end;
                         li_price :=
                           match oli_price item with
                           | Some p => if falsy p then num_of_Z 0 else p
                           | None => num_of_Z 0
                           end |})
                   (item :: items))
              db
        | _ => db
        end in
      Returned db conversion
  end.

(** *** Shopify webhook route *)

Record ShopifyLineItem : Type := {
  sli_product_id : option string;
  sli_variant_id : option string;
  sli_sku : option string;
  sli_name : option string;
  sli_quantity : Z;
  sli_price : num                   (* [parseFloat(item.price)] *)
}.

Record ShopifyOrder : Type := {
  o_id : Z;
  o_order_number : option string;
  o_total_price : num;              (* [parseFloat(order.total_price)] *)
  o_currency : option string;
  o_line_items : option (list ShopifyLineItem);
  o_customer_id : option string;
  o_customer_email : option string;
  o_created_at : Z
}.

(** The note, attribute and referrer scan that finds the session id of an
    order; the handlers only use its result. *)
Variable extractSessionId : ShopifyOrder -> option string.

Definition with_session_attribution (session : Session)
    (daysToPurchase : Z) (c : Conversion) : Conversion :=
  {| c_id := c_id c;
     c_sessionId := c_sessionId c;
     c_conversionId := c_conversionId c;
     c_createdAt := c_createdAt c;
     c_updatedAt := c_updatedAt c;
     c_orderId := c_orderId c;
     c_orderNumber := c_orderNumber c;
     c_totalValue := c_totalValue c;
     c_currency := c_currency c;
     c_itemCount := c_itemCount c;
     c_customerId := c_customerId c;
     c_email := c_email c;
     c_firstClickUtmSource := utmSource (s_context session);
     c_firstClickUtmMedium := utmMedium (s_context session);
     c_firstClickUtmCampaign := utmCampaign (s_context session);
     c_lastClickUtmSource := utmSource (s_context session);
     c_lastClickUtmMedium := utmMedium (s_context session);
     c_lastClickUtmCampaign := utmCampaign (s_context session);
     c_touchpointCount := Some 1%Z;
     c_daysToPurchase := Some daysToPurchase;
     c_sessionsToConversion := Some 1%Z;
     c_attributionData := c_attributionData c |}.

Definition updateSessionAttribution (now : Z) (sessionId : string)
    (order : ShopifyOrder) (db : Store) : Store :=
  match sessions db !! sessionId with
  | Some session =>
      let daysToPurchase :=
        ((now - s_createdAt session) / (1000 * 60 * 60 * 24))%Z in
      conversion_updateMany (pretty (o_id order))
        (with_session_attribution session daysToPurchase) db
  | None => db
  end.

Definition handleOrderCreate (now : Z) (order : ShopifyOrder) (db : Store)
    : Outcome string :=
  let sessionId := extractSessionId order in
  match
    conversion_create
      (fun id =>
         {| c_id := id;
            c_sessionId :=
              or_else sessionId ("shopify_" +:+ pretty (o_id order));
            c_conversionId := "shopify_" +:+ pretty (o_id order);
            c_createdAt := o_created_at order;
            c_updatedAt := None;
            c_orderId := Some (pretty (o_id order));
            c_orderNumber := o_order_number order;
            c_totalValue := o_total_price order;
            c_currency := default "USD" (o_currency order);
            c_itemCount := Some (length_or_0 (o_line_items order));
            c_customerId := o_customer_id order;
            c_email := o_customer_email order;
            c_firstClickUtmSource := None;
            c_firstClickUtmMedium := None;
            c_firstClickUtmCampaign := None;
            c_lastClickUtmSource := None;
            c_lastClickUtmMedium := None;
            c_lastClickUtmCampaign := None;
            c_touchpointCount := None;
            c_daysToPurchase := None;
            c_sessionsToConversion := None;
            c_attributionData := None |})
      db
  with
  | Thrown db error => Thrown db error
  | Returned db conversion =>
      let db :=
        match o_line_items order with
        | Some items =>
            lineItem_createMany
              (map (fun item =>
                      {| li_conversionId := c_id conversion;
                         li_productId := sli_product_id item;
                         li_variantId := sli_variant_id item;
                         li_sku := sli_sku item;
                         li_productName := sli_name item;
                         li_category := None;
                         li_quantity := sli_quantity item;
                         li_price := sli_price item |})
                   items)
              db
        | None => db
        end in
      let db :=
        match sessionId with
        | Some sessionId =>
            if decide (sessionId = "") then db
            else updateSessionAttribution now sessionId order db
        | None => db
        end in
      Returned db (c_conversionId conversion)
  end.

Definition with_order_fields (totalValue : num) (itemCount : Z)
    (updatedAt : Z) (c : Conversion) : Conversion :=
  {| c_id := c_id c;
     c_sessionId := c_sessionId c;
     c_conversionId := c_conversionId c;
     c_createdAt := c_createdAt c;
     c_updatedAt := Some updatedAt;
     c_orderId := c_orderId c;
     c_orderNumber := c_orderNumber c;
     c_totalValue := totalValue;
     c_currency := c_currency c;
     c_itemCount := Some itemCount;
     c_customerId := c_customerId c;
     c_email := c_email c;
     c_firstClickUtmSource := c_firstClickUtmSource c;
     c_firstClickUtmMedium := c_firstClickUtmMedium c;
     c_firstClickUtmCampaign := c_firstClickUtmCampaign c;
     c_lastClickUtmSource := c_lastClickUtmSource c;
     c_lastClickUtmMedium := c_lastClickUtmMedium c;
     c_lastClickUtmCampaign := c_lastClickUtmCampaign c;
     c_touchpointCount := c_touchpointCount c;
     c_daysToPurchase := c_daysToPurchase c;
     c_sessionsToConversion := c_sessionsToConversion c;
     c_attributionData := c_attributionData c |}.

Definition handleOrderUpdate (now : Z) (order : ShopifyOrder) (db : Store)
    : Store :=
  conversion_updateMany (pretty (o_id order))
    (with_order_fields (o_total_price order)
                       (length_or_0 (o_line_items order)) now)
    db.

(** *** Analytics route: the funnel *)

Record FunnelStep : Type := {
  name : string;
  eventPattern : string
}.

Record FunnelRow : Type := {
  step : string;
  visitors : Z;
  conversionRate : num;
  dropOff : Z
}.

Definition steps : list FunnelStep :=
  [ {| name := "Landing Page Views"; eventPattern := "page_view" |};
    {| name := "Product Views"; eventPattern := "product_view" |};
    {| name := "Add to Cart"; eventPattern := "add_to_cart" |};
    {| name := "Checkout Started"; eventPattern := "checkout_started" |};
    {| name := "Purchase"; eventPattern := "purchase_completed" |} ].

(** [prisma.event.groupBy({ by: ['sessionId'], where })]: one group per
    distinct session among the events of that name created in the window;
    the handler takes the number of groups. *)
Definition groupBy_sessionId (eventName : string) (startDate endDate : Z)
    (db : Store) : gset string :=
  list_to_set
    (map e_sessionId
       (filter (fun e => e_eventName e = eventName
                         ∧ (startDate ≤ e_createdAt e)%Z
                         ∧ (e_createdAt e ≤ endDate)%Z)
               (events db))).

(** The first loop of [getFunnelData]: one row per step. *)
Definition funnelRows (steps : list FunnelStep) (startDate endDate : Z)
    (db : Store) : list FunnelRow :=
  map (fun step =>
         let visitors :=
           groupBy_sessionId (eventPattern step) startDate endDate db in
         let visitorCount := Z.of_nat (size visitors) in
         {| step := name step; visitors := visitorCount;
            conversionRate := num_of_Z 0; dropOff := 0 |})
      steps.

(** [funnelData[i].visitors] *)
Definition visitors_at (funnelData : list FunnelRow) (i : nat) : Z :=
  match funnelData !! i with Some row => visitors row | None => 0 end.

(** The second loop of [getFunnelData].  It assigns [conversionRate] and
    [dropOff] of row [i] in place and reads only [visitors], which it never
    assigns, so the loop is a map over the rows. *)
Definition calculateRates (funnelData : list FunnelRow) : list FunnelRow :=
  Array_map
    (fun row i =>
       let conversionRate :=
         if (i =? 0)%nat then num_of_Z 100
         else
           let previousVisitors := visitors_at funnelData 0 in
           if (0 <? previousVisitors)%Z
           then nmul (ndiv (num_of_Z (visitors row))
                           (num_of_Z previousVisitors))
                     (num_of_Z 100)
           else num_of_Z 0 in
       let dropOff :=
         if (0 <? i)%nat
         then (visitors_at funnelData (i - 1) - visitors row)%Z
         else dropOff row in
       {| step := step row; visitors := visitors row;
          conversionRate := conversionRate; dropOff := dropOff |})
    funnelData.

Definition funnelFor (steps : list FunnelStep) (startDate endDate : Z)
    (db : Store) : list FunnelRow :=
  calculateRates (funnelRows steps startDate endDate db).

Definition getFunnelData (startDate endDate : Z) (db : Store)
    : list FunnelRow :=
  funnelFor steps startDate endDate db.

End Store.

Arguments Conversion num : clear implicits.
Arguments Store num : clear implicits.
Arguments Outcome num A : clear implicits.
Arguments Returned {num A} db value.
Arguments Thrown {num A} db error.
Arguments FunnelRow num : clear implicits.
Arguments ShopifyOrder num : clear implicits.
Arguments OrderData num : clear implicits.

(** ** Further handlers of the same routes *)

(** The [landing_page_events] table has no foreign key to [sessions]; the
    [events] table has one. *)
Record LandingPageEvent (num : Type) : Type := {
  lp_sessionId : string;
  lp_visitorId : string;
  lp_eventName : string;
  lp_createdAt : Z;
  lp_pageUrl : string;
  lp_pageTitle : option string;
  lp_referrer : option string;
  lp_elementId : option string;
  lp_elementClass : option string;
  lp_elementText : option string;
  lp_clickX : option Z;
  lp_clickY : option Z;
  lp_scrollDepth : option Z;
  lp_timeOnPage : option Z;
  lp_loadTime : option Z;
  lp_lcpTime : option num;
  lp_fidTime : option num;
  lp_customData : option string
}.

Arguments lp_sessionId {num} _.
Arguments lp_visitorId {num} _.
Arguments lp_eventName {num} _.
Arguments lp_createdAt {num} _.
Arguments lp_pageUrl {num} _.
Arguments lp_pageTitle {num} _.
Arguments lp_referrer {num} _.
Arguments lp_elementId {num} _.
Arguments lp_elementClass {num} _.
Arguments lp_elementText {num} _.
Arguments lp_clickX {num} _.
Arguments lp_clickY {num} _.
Arguments lp_scrollDepth {num} _.
Arguments lp_timeOnPage {num} _.
Arguments lp_loadTime {num} _.
Arguments lp_lcpTime {num} _.
Arguments lp_fidTime {num} _.
Arguments lp_customData {num} _.

(** The store of the tracking route: the tables above and
    [landing_page_events]. *)
Record TrackingStore (num : Type) : Type := {
  main : Store num;
  landingPageEvents : list (LandingPageEvent num)
}.

Arguments main {num} _.
Arguments landingPageEvents {num} _.

Inductive TrackingOutcome (num : Type) (A : Type) : Type :=
  | TReturned (tdb : TrackingStore num) (value : A)
  | TThrown (tdb : TrackingStore num) (error : PrismaError).

Arguments TReturned {num A} tdb value.
Arguments TThrown {num A} tdb error.

(** What a handler of the tracking route answers. *)
Inductive Response : Type :=
  | Success (conversionId : option string)
  | SessionStarted (sessionId : string)
  | Failure (status : Z) (error : string).

Section MoreHandlers.
Context {num : Type} `{Number num}.

(** [prisma.event.create]: [sessionId] must name a session row. *)
Definition event_create (row : Event) (db : Store num) : Outcome num unit :=
  match sessions db !! e_sessionId row with
  | None => Thrown db (ForeignKeyConstraintFailed "sessionId")
  | Some _ =>
      Returned {| sessions := sessions db;
                  conversions := conversions db;
                  lineItems := lineItems db;
                  events := events db ++ [row];
                  next_id := next_id db |} tt
  end.

(** *** Shopify webhook route, continued *)

Definition with_updatedAt (updatedAt : Z) (c : Conversion num)
    : Conversion num :=
  {| c_id := c_id c;
     c_sessionId := c_sessionId c;
     c_conversionId := c_conversionId c;
     c_createdAt := c_createdAt c;
     c_updatedAt := Some updatedAt;
     c_orderId := c_orderId c;
     c_orderNumber := c_orderNumber c;
     c_totalValue := c_totalValue c;
     c_currency := c_currency c;
     c_itemCount := c_itemCount c;
     c_customerId := c_customerId c;
     c_email := c_email c;
     c_firstClickUtmSource := c_firstClickUtmSource c;
     c_firstClickUtmMedium := c_firstClickUtmMedium c;
     c_firstClickUtmCampaign := c_firstClickUtmCampaign c;
     c_lastClickUtmSource := c_lastClickUtmSource c;
     c_lastClickUtmMedium := c_lastClickUtmMedium c;
     c_lastClickUtmCampaign := c_lastClickUtmCampaign c;
     c_touchpointCount := c_touchpointCount c;
     c_daysToPurchase := c_daysToPurchase c;
     c_sessionsToConversion := c_sessionsToConversion c;
     c_attributionData := c_attributionData c |}.

(** [orders/paid].  The Meta Pixel request sent afterwards writes no table
    and catches its own errors. *)
Definition handleOrderPaid (now : Z) (order : ShopifyOrder num)
    (db : Store num) : Store num :=
  conversion_updateMany (pretty (o_id order)) (with_updatedAt now) db.

(** [orders/cancelled]: "you might want to add a status field". *)
Definition handleOrderCancelled (now : Z) (order : ShopifyOrder num)
    (db : Store num) : Store num :=
  conversion_updateMany (pretty (o_id order)) (with_updatedAt now) db.

Record ShopifyCheckout : Type := {
  ck_id : Z;
  ck_total_price : option string;
  ck_currency : option string;
  ck_line_items : option nat;               (* [line_items.length] *)
  ck_created_at : Z
}.

(** The session id found on a checkout, and the [JSON.stringify] of its
    [{ checkoutId, totalPrice, lineItemsCount }] summary. *)
Variable extractSessionId_checkout : ShopifyCheckout -> option string.
Variable JSON_stringify_checkout : ShopifyCheckout -> string.

(** [checkouts/create]: the event is written only when a session id is
    found; the Meta Pixel request writes no table. *)
Definition handleCheckoutCreate (now : Z) (checkout : ShopifyCheckout)
    (db : Store num) : Outcome num unit :=
  match extractSessionId_checkout checkout with
  | Some sessionId =>
      if decide (sessionId = "") then Returned db tt
      else
        event_create
          {| e_sessionId := sessionId;
             e_eventName := "checkout_started";
             e_createdAt := now;
             e_timestamp := ck_created_at checkout;
             e_pageUrl := None;
             e_eventData := Some (JSON_stringify_checkout checkout) |}
          db
  | None => Returned db tt
  end.

(** *** Tracking route, continued *)

Record PageViewData : Type := {
  pv_sessionId : string;
  pv_visitorId : string;
  pv_pageUrl : string;
  pv_pageTitle : option string;
  pv_referrer : option string;
  pv_timestamp : Z;
  pv_loadTime : option Z;
  pv_lcpTime : option num;
  pv_fidTime : option num
}.

Definition landingPageEvent_create (row : LandingPageEvent num)
    (tdb : TrackingStore num) : TrackingStore num :=
  {| main := main tdb;
     landingPageEvents := landingPageEvents tdb ++ [row] |}.

(** Lifts a write to the main tables to the tracking store. *)
Definition on_main {A : Type} (o : Outcome num A) (tdb : TrackingStore num)
    : TrackingOutcome num A :=
  match o with
  | Returned db value =>
      TReturned {| main := db; landingPageEvents := landingPageEvents tdb |}
                value
  | Thrown db error =>
      TThrown {| main := db; landingPageEvents := landingPageEvents tdb |}
              error
  end.

Definition handlePageView (now : Z) (data : PageViewData)
    (tdb : TrackingStore num) : TrackingOutcome num Response :=
  let tdb :=
    landingPageEvent_create
      {| lp_sessionId := pv_sessionId data;
         lp_visitorId := pv_visitorId data;
         lp_eventName := "page_view";
         lp_createdAt := pv_timestamp data;
         lp_pageUrl := pv_pageUrl data;
         lp_pageTitle := pv_pageTitle data;
         lp_referrer := pv_referrer data;
         lp_elementId := None; lp_elementClass := None;
         lp_elementText := None; lp_clickX := None; lp_clickY := None;
         lp_scrollDepth := None; lp_timeOnPage := None;
         lp_loadTime := pv_loadTime data;
         lp_lcpTime := pv_lcpTime data;
         lp_fidTime := pv_fidTime data;
         lp_customData := None |}
      tdb in
  match
    event_create
      {| e_sessionId := pv_sessionId data;
         e_eventName := "page_view";
         e_createdAt := now;
         e_timestamp := pv_timestamp data;
         e_pageUrl := Some (pv_pageUrl data);
         e_eventData := None |}
      (main tdb)
  with
  | Thrown db error => on_main (Thrown db error) tdb
  | Returned db _ => on_main (Returned db (Success None)) tdb
  end.

Record InteractionData : Type := {
  ia_sessionId : string;
  ia_visitorId : string;
  ia_eventName : string;
  ia_pageUrl : string;
  ia_elementId : option string;
  ia_elementClass : option string;
  ia_elementText : option string;
  ia_clickX : option Z;
  ia_clickY : option Z;
  ia_scrollDepth : option Z;
  ia_timeOnPage : option Z;
  ia_customData : option string   (* [JSON.stringify(customData)], if truthy *)
}.

(** The general event is written inside [try]/[catch]: a failure is logged
    and the handler carries on. *)
Definition handleInteraction (now : Z) (data : InteractionData)
    (tdb : TrackingStore num) : TrackingOutcome num Response :=
  let tdb :=
    landingPageEvent_create
      {| lp_sessionId := ia_sessionId data;
         lp_visitorId := ia_visitorId data;
         lp_eventName := ia_eventName data;
         lp_createdAt := now;
         lp_pageUrl := ia_pageUrl data;
         lp_pageTitle := None;
         lp_referrer := None;
         lp_elementId := ia_elementId data;
         lp_elementClass := ia_elementClass data;
         lp_elementText := ia_elementText data;
         lp_clickX := ia_clickX data;
         lp_clickY := ia_clickY data;
         lp_scrollDepth := ia_scrollDepth data;
         lp_timeOnPage := ia_timeOnPage data;
         lp_loadTime := None; lp_lcpTime := None; lp_fidTime := None;
         lp_customData := ia_customData data |}
      tdb in
  match
    event_create
      {| e_sessionId := ia_sessionId data;
         e_eventName := ia_eventName data;
         e_createdAt := now;
         e_timestamp := now;
         e_pageUrl := Some (ia_pageUrl data);
         e_eventData := ia_customData data |}
      (main tdb)
  with
  | Thrown _ _ => TReturned tdb (Success None)
  | Returned db _ => on_main (Returned db (Success None)) tdb
  end.

Record TrackedLineItem : Type := {
  tli_productId : option string;
  tli_variantId : option string;
  tli_sku : option string;
  tli_productName : option string;
  tli_category : option string;
  tli_quantity : Z;
  tli_price : num
}.

Record ConversionData : Type := {
  cd_sessionId : string;
  cd_orderId : option string;
  cd_orderNumber : option string;
  cd_totalValue : num;
  cd_currency : option string;
  cd_itemCount : option Z;
  cd_customerId : option string;
  cd_email : option string;
  cd_lineItems : option (list TrackedLineItem);
  cd_touchpointCount : option Z;
  cd_daysToPurchase : option Z;
  cd_sessionsToConversion : option Z
}.

(** [random] is [Math.random().toString(36).substr(2, 9)]. *)
Definition handleConversion (now : Z) (random : string)
    (data : ConversionData) (db : Store num) : Outcome num Response :=
  match sessions db !! cd_sessionId data with
  | None => Returned db (Failure 404 "Session not found")
  | Some session =>
      match
        conversion_create
          (fun id =>
             {| c_id := id;
                c_sessionId := cd_sessionId data;
                c_conversionId := "conv_" +:+ pretty now +:+ "_" +:+ random;
                c_createdAt := now;
                c_updatedAt := None;
                c_orderId := cd_orderId data;
                c_orderNumber := cd_orderNumber data;
                c_totalValue := cd_totalValue data;
                c_currency := or_else (cd_currency data) "USD";
                c_itemCount := cd_itemCount data;
                c_customerId := cd_customerId data;
                c_email := cd_email data;
                c_firstClickUtmSource := utmSource (s_context session);
                c_firstClickUtmMedium := utmMedium (s_context session);
                c_firstClickUtmCampaign := utmCampaign (s_context session);
                c_lastClickUtmSource := utmSource (s_context session);
                c_lastClickUtmMedium := utmMedium (s_context session);
                c_lastClickUtmCampaign := utmCampaign (s_context session);
                c_touchpointCount := cd_touchpointCount data;
                c_daysToPurchase := cd_daysToPurchase data;
                c_sessionsToConversion := cd_sessionsToConversion data;
                c_attributionData := None |})
          db
      with
      | Thrown db error => Thrown db error
      | Returned db conversion =>
          let db :=
            match cd_lineItems data with
            | Some lineItems =>
                lineItem_createMany
                  (map (fun item =>
                          {| li_conversionId := c_id conversion;
                             li_productId := tli_productId item;
                             li_variantId := tli_variantId item;
                             li_sku := tli_sku item;
                             li_productName := tli_productName item;
                             li_category := tli_category item;
                             li_quantity := tli_quantity item;
                             li_price := tli_price item |})
                       lineItems)
                  db
            | None => db
            end in
          Returned db (Success (Some (c_conversionId conversion)))
      end
  end.

(** *** Analytics route: real-time counters *)

(** The constants [activeUsers], [sessionsLast30Minutes] and
    [conversionEvents] of [getRealTimeData]. *)
Definition activeUsers (now : Z) (db : Store num) : nat :=
  let thirtyMinutesAgo := (now - 30 * 60 * 1000)%Z in
  size (filter (fun kv => (thirtyMinutesAgo <= s_updatedAt kv.2)%Z)
               (sessions db)).

Definition sessionsLast30Minutes (now : Z) (db : Store num) : nat :=
  let thirtyMinutesAgo := (now - 30 * 60 * 1000)%Z in
  size (filter (fun kv => (thirtyMinutesAgo <= s_createdAt kv.2)%Z)
               (sessions db)).


End MoreHandlers.

Arguments PageViewData num : clear implicits.
Arguments TrackedLineItem num : clear implicits.
Arguments ConversionData num : clear implicits.

(** *** Shopify webhook route: finding the session id *)

(** [[a-zA-Z0-9_-]] *)
Definition is_id_char (c : Ascii.ascii) : bool :=
  let n := Ascii.nat_of_ascii c in
  ((97 <=? n) && (n <=? 122) || (65 <=? n) && (n <=? 90)
   || (48 <=? n) && (n <=? 57) || (n =? 95) || (n =? 45))%nat.

(** The longest run of id characters at the start of [s]: what the greedy
    [+] consumes. *)
Fixpoint take_id (s : string) : string :=
  match s with
  | String c s' => if is_id_char c then String c (take_id s') else ""
  | EmptyString => ""
  end.

Fixpoint strip_prefix (prefix s : string) : option string :=
  match prefix, s with
  | EmptyString, _ => Some s
  | String a prefix', String b s' =>
      if decide (a = b) then strip_prefix prefix' s' else None
  | String _ _, EmptyString => None
  end.

(** The match of [/<prefix>([a-zA-Z0-9_-]+)/] that starts at the first
    character of [s], if there is one: its capture group. *)
Definition match_id_here (prefix s : string) : option string :=
  match strip_prefix prefix s with
  | Some rest =>
      let id := take_id rest in
      if decide (id = "") then None else Some id
  | None => None
  end.

(** [s.match(/<prefix>([a-zA-Z0-9_-]+)/)]: capture group 1 of the leftmost
    match, [None] when nothing matches. *)
Fixpoint match_id_after (prefix s : string) : option string :=
  match match_id_here prefix s with
  | Some id => Some id
  | None =>
      match s with
      | String _ s' => match_id_after prefix s'
      | EmptyString => None
      end
  end.

Record NoteAttribute : Type := {
  attr_name : string;
  attr_value : option string
}.

(** The fields of an order or checkout payload that [extractSessionId]
    reads. *)
Record SessionIdSources : Type := {
  src_note : option string;
  src_customer_note : option string;           (* [order.customer?.note] *)
  src_attributes : option (list NoteAttribute);
  src_referring_site : option string
}.

Definition extractSessionId (order : SessionIdSources) : option string :=
  match src_note order ≫= match_id_after "session_id:" with
  | Some id => Some id
  | None =>
      match src_customer_note order ≫= match_id_after "session_id:" with
      | Some id => Some id
      | None =>
          match
            src_attributes order
            ≫= List.find (fun attr =>
                            bool_decide (attr_name attr = "session_id"))
          with
          | Some attr => attr_value attr
          | None => src_referring_site order ≫= match_id_after "session="
          end
      end
  end.

(** *** Shopify webhook route: the request handler *)

(** [crypto.timingSafeEqual] on the bytes of two strings; it throws
    ([None]) when the lengths differ. *)
Definition timingSafeEqual (a b : string) : option bool :=
  if decide (String.length a = String.length b)
  then Some (bool_decide (a = b))
  else None.

Module WebhookRoute.
Section Webhook.
Context {num : Type} `{Number num}.

(** The parsed body, and the views of it that the handlers read. *)
Variable Json : Type.
Variable JSON_parse : string -> option Json.
Variable as_order : Json -> ShopifyOrder num.
Variable as_checkout : Json -> ShopifyCheckout.
Variable sources : Json -> SessionIdSources.
Variable JSON_stringify_checkout : ShopifyCheckout -> string.

(** [process.env.SHOPIFY_WEBHOOK_SECRET], and the base64 digest of the
    HMAC-SHA256 of a body under a secret. *)
Variable SHOPIFY_WEBHOOK_SECRET : option string.
Variable createHmac : string -> string -> string.

Definition verifyWebhook (body : string) (hmacHeader : option string)
    : option bool :=
  match hmacHeader, SHOPIFY_WEBHOOK_SECRET with
  | Some header, Some secret =>
      if decide (header = "") then Some false
      else if decide (secret = "") then Some false
      else timingSafeEqual header (createHmac secret body)
  | _, _ => Some false
  end.

Definition POST (now : Z) (body : string) (hmacHeader topic : option string)
    (db : Store num) : Store num * Response :=
  let internal_error db := (db, Failure 500 "Internal server error") in
  match verifyWebhook body hmacHeader with
  | None => internal_error db
  | Some false => (db, Failure 401 "Unauthorized")
  | Some true =>
      match JSON_parse body with
      | None => internal_error db
      | Some data =>
          if decide (topic = Some "orders/create") then
            match
              handleOrderCreate (fun _ => extractSessionId (sources data))
                now (as_order data) db
            with
            | Returned db conversionId => (db, Success (Some conversionId))
            | Thrown db _ => internal_error db
            end
          else if decide (topic = Some "orders/updated") then
            (handleOrderUpdate now (as_order data) db, Success None)
          else if decide (topic = Some "orders/paid") then
            (handleOrderPaid now (as_order data) db, Success None)
          else if decide (topic = Some "orders/cancelled") then
            (handleOrderCancelled now (as_order data) db, Success None)
          else if decide (topic = Some "checkouts/create") then
            match
              handleCheckoutCreate
                (fun _ => extractSessionId (sources data))
                JSON_stringify_checkout now (as_checkout data) db
            with
            | Returned db _ => (db, Success None)
            | Thrown db _ => internal_error db
            end
          else (db, Success None)
      end
  end.

End Webhook.
End WebhookRoute.

(** *** Tracking route: the request handler *)

(** The parsed body of a tracking request, [{ type, data }];
    [unknown_type] is any [type] without a handler. *)
Inductive TrackingRequest (num : Type) : Type :=
  | session_start (data : SessionStartData)
  | page_view (data : PageViewData num)
  | interaction (data : InteractionData)
  | conversion (data : ConversionData num)
  | unknown_type (type : string).

Arguments session_start {num} data.
Arguments page_view {num} data.
Arguments interaction {num} data.
Arguments conversion {num} data.
Arguments unknown_type {num} type.

Module TrackingRoute.
Section Tracking.
Context {num : Type} `{Number num}.

(** [body] is [None] when [request.json()] throws.  The answer to
    [session_start] carries the id of the row upserted under
    [data.sessionId]. *)
Definition POST (now : Z) (random : string)
    (body : option (TrackingRequest num)) (tdb : TrackingStore num)
    : TrackingStore num * Response :=
  let internal_error tdb := (tdb, Failure 500 "Internal server error") in
  match body with
  | None => internal_error tdb
  | Some request =>
      let outcome :=
        match request with
        | session_start data =>
            on_main (Returned (handleSessionStart now data (main tdb))
                              (SessionStarted (d_sessionId data)))
                    tdb
        | page_view data => handlePageView now data tdb
        | interaction data => handleInteraction now data tdb
        | conversion data =>
            on_main (handleConversion now random data (main tdb)) tdb
        | unknown_type _ =>
            TReturned tdb (Failure 400 "Unknown event type")
        end in
      match outcome with
      | TReturned tdb response => (tdb, response)
      | TThrown tdb _ => internal_error tdb
      end
  end.

End Tracking.
End TrackingRoute.

(** ** Tolerance and sample data used in the statements below *)


Definition within_tolerance_float (x : float) : bool :=
  (abs (x - 1) <=? 1e-9)%float.

Definition touch (session : string) (timestamp : Z) : Touchpoint :=
  {| tp_session_id := Some session; tp_utm_source := Some "google";
     tp_utm_medium := Some "cpc"; tp_utm_campaign := Some "spring";
     tp_timestamp := timestamp; tp_other := [] |}.

Definition day : Z := 24 * 60 * 60 * 1000.


Definition journey3 : list Touchpoint :=
  [touch "s1" (3 * day); touch "s1" (7 * day); touch "s2" (9 * day)].

Definition no_context : SessionContext :=
  {| userAgent := None; ipAddress := None; deviceType := None;
     browser := None; os := None; country := None; timezone := None;
     language := None; utmSource := None; utmMedium := None;
     utmCampaign := None; utmTerm := None; utmContent := None;
     referrer := None; landingPage := None; fbclid := None; gclid := None;
     ttclid := None |}.

Definition google_context : SessionContext :=
  {| userAgent := Some "Mozilla/5.0"; ipAddress := None;
     deviceType := Some "mobile"; browser := None; os := None;
     country := None; timezone := None; language := None;
     utmSource := Some "google"; utmMedium := Some "cpc";
     utmCampaign := Some "spring"; utmTerm := None; utmContent := None;
     referrer := None; landingPage := Some "/"; fbclid := None;
     gclid := Some "g-1"; ttclid := None |}.

Definition start_data (context : SessionContext) : SessionStartData :=
  {| d_sessionId := "sess-1"; d_visitorId := "v-1"; d_context := context |}.

Definition empty_store {num : Type} : Store num :=
  {| sessions := ∅; conversions := []; lineItems := []; events := [];
     next_id := 0 |}.

(** A store in which session [sess-1] was started at time 0. *)
Definition store_with_session {num : Type} : Store num :=
  handleSessionStart 0 (start_data google_context) empty_store.



Definition order_1001 : OrderData R :=
  {| order_id := "1001"; order_number := Some "#1001";
     total_price := 50%R; currency := Some "USD"; line_items := None;
     customer_id := Some "cust-7"; email := None |}.

Definition attribution_sess_1 : option Attribution :=
  Some {| a_session_id := Some "sess-1"; a_utm_source := Some "google";
          a_utm_medium := Some "cpc"; a_utm_campaign := Some "spring" |}.

Definition shopify_order (id : Z) (total : float) : ShopifyOrder float :=
  {| o_id := id; o_order_number := Some "#1001"; o_total_price := total;
     o_currency := Some "USD"; o_line_items := None;
     o_customer_id := Some "cust-7"; o_customer_email := None;
     o_created_at := 500 |}.

(** An extraction that finds session [sess-1] on every order. *)
Definition extract_sess_1 {num : Type} (order : ShopifyOrder num)
    : option string :=
  Some "sess-1".

(** [n] events of one name, one per session [s0] ... [s(n-1)], created at
    time 5. *)
Definition events_of (eventName : string) (n : nat) : list Event :=
  map (fun k => {| e_sessionId := "s" +:+ pretty k; e_eventName := eventName;
                   e_createdAt := 5; e_timestamp := 5; e_pageUrl := None;
                   e_eventData := None |})
      (seq 0 n).

Definition store_of_events {num : Type} (l : list Event) : Store num :=
  {| sessions := ∅; conversions := []; lineItems := []; events := l;
     next_id := 0 |}.

Definition example_steps : list FunnelStep :=
  [ {| name := "Landing"; eventPattern := "page_view" |};
    {| name := "ProductView"; eventPattern := "product_view" |};
    {| name := "AddToCart"; eventPattern := "add_to_cart" |};
    {| name := "Purchase"; eventPattern := "purchase_completed" |} ].

(** 100 sessions view the landing page (twice each), 60 of them view a
    product, 20 add to cart and 5 purchase. *)
Definition example_funnel_events : list Event :=
  events_of "page_view" 100 ++ events_of "product_view" 60
  ++ events_of "page_view" 100 ++ events_of "add_to_cart" 20
  ++ events_of "purchase_completed" 5.

(** Two sessions view a product; nobody views the landing page. *)
Definition no_landing_events : list Event := events_of "product_view" 2.

(** Order 1002 with one line item that names neither quantity nor price. *)
Definition order_with_item : OrderData R :=
  {| order_id := "1002"; order_number := None; total_price := 20%R;
     currency := None;
     line_items :=
       Some [ {| oli_product_id := Some "p-1"; oli_variant_id := None;
                 oli_sku := None; oli_name := None;
                 oli_title := Some "Mug"; oli_category := None;
                 oli_quantity := None; oli_price := None |} ];
     customer_id := None; email := None |}.

(** A session row as [handleSessionStart] leaves it: stored under its own
    id, expiring 30 minutes after its last update. *)
Definition session_consistent (sessionId : string) (s : Session) : Prop :=
  s_sessionId s = sessionId
  /\ s_expiresAt s = (s_updatedAt s + 30 * 60 * 1000)%Z.

Definition sessions_consistent {num : Type} (db : Store num) : Prop :=
  map_Forall session_consistent (sessions db).

(** A run of [session_start] requests, each with its clock reading. *)
Definition session_starts {num : Type} (calls : list (Z * SessionStartData))
    (db : Store num) : Store num :=
  fold_left (fun db call => handleSessionStart call.1 call.2 db) calls db.

(** An order payload whose note carries session [sess-1], while its
    attribute and its referring site name other sessions. *)
Definition noted_sources : SessionIdSources :=
  {| src_note := Some "session_id:sess-1 (landing page)";
     src_customer_note := None;
     src_attributes :=
       Some [{| attr_name := "session_id"; attr_value := Some "sess-2" |}];
     src_referring_site := Some "https://shop.example/?session=sess-3" |}.


(** A page view of session [sess-1] whose client timestamp is a day off. *)
Definition late_page_view : PageViewData float :=
  {| pv_sessionId := "sess-1"; pv_visitorId := "v-1"; pv_pageUrl := "/";
     pv_pageTitle := None; pv_referrer := None; pv_timestamp := 86400000;
     pv_loadTime := None; pv_lcpTime := None; pv_fidTime := None |}.


(** * Properties *)

(** ** Arrays *)

Section ArrayFacts.
Context {A B : Type}.
Implicit Types (f g : A -> nat -> B) (l : list A).

Lemma Array_map_from_length f l start :
  length (Array_map_from start f l) = length l.
Proof.
  revert start. induction l as [|x l IH]; intros start; simpl; [done|].
  by rewrite IH.
Qed.

Lemma Array_map_from_app f l1 l2 start :
  Array_map_from start f (l1 ++ l2)
  = Array_map_from start f l1
    ++ Array_map_from (start + length l1) f l2.
Proof.
  revert start. induction l1 as [|x l1 IH]; intros start; simpl.
  - by rewrite Nat.add_0_r.
  - rewrite IH. by replace (S start + length l1)%nat
      with (start + S (length l1))%nat by lia.
Qed.

(** Two callbacks that agree on the indices the array has give the same
    result. *)
Lemma Array_map_from_ext f g l start :
  (forall i x, l !! i = Some x -> f x (start + i)%nat = g x (start + i)%nat) ->
  Array_map_from start f l = Array_map_from start g l.
Proof.
  revert start. induction l as [|x l IH]; intros start Hfg; simpl; [done|].
  f_equal.
  - specialize (Hfg 0%nat x eq_refl). by rewrite Nat.add_0_r in Hfg.
  - apply IH. intros i y Hy. specialize (Hfg (S i) y Hy).
    by replace (S start + i)%nat with (start + S i)%nat by lia.
Qed.

(** A callback that ignores the index is an ordinary map. *)
Lemma Array_map_from_const (h : A -> B) l start :
  Array_map_from start (fun x _ => h x) l = map h l.
Proof.
  revert start. induction l as [|x l IH]; intros start; simpl; [done|].
  by rewrite IH.
Qed.

Lemma Array_map_length f l : length (Array_map f l) = length l.
Proof. apply Array_map_from_length. Qed.

End ArrayFacts.



Lemma map_Array_map_from {A B C : Type} (k : B -> C) (f : A -> nat -> B)
    (l : list A) (start : nat) :
  map k (Array_map_from start f l)
  = Array_map_from start (fun x i => k (f x i)) l.
Proof.
  revert start. induction l as [|x l IH]; intros start; simpl; [done|].
  by rewrite IH.
Qed.

Lemma map_const_repeat {A B : Type} (c : B) (l : list A) :
  map (fun _ => c) l = repeat c (length l).
Proof. induction l as [|x l IH]; simpl; [done|]. by rewrite IH. Qed.

Lemma nth_error_last {A : Type} (l : list A) :
  nth_error l (length l - 1) = last l.
Proof.
  induction l as [|x [|y l] IH]; try done.
  simpl in IH |- *. by rewrite Nat.sub_0_r in IH.
Qed.

(** ** Attribution calculator: shape of the result *)

Section AttributionFacts.
Context {num : Type} `{Number num}.
Variable Math_pow : num -> num -> num.

Lemma calculateAttributionModels_nonempty now journey :
  journey <> [] ->
  calculateAttributionModels Math_pow now (Some journey)
  = {| first_click := head journey; last_click := last journey;
       linear := linear_model journey;
       time_decay := timeDecay Math_pow now journey;
       position_based := positionBased journey |}.
Proof.
  intros Hne. destruct journey as [|tp rest]; [done|].
  unfold calculateAttributionModels. by rewrite nth_error_last.
Qed.

Lemma touchpoint_Array_map (w : Touchpoint -> nat -> num) journey :
  map touchpoint
    (Array_map (fun tp index =>
                  {| touchpoint := tp; attribution_weight := w tp index |})
               journey)
  = journey.
Proof.
  unfold Array_map. rewrite map_Array_map_from. simpl.
  rewrite (Array_map_from_const (fun tp => tp)). apply map_id.
Qed.

Lemma touchpoint_linear_model journey :
  map touchpoint (linear_model journey) = journey.
Proof. unfold linear_model. rewrite map_map. simpl. apply map_id. Qed.

Lemma touchpoint_timeDecay now journey :
  map touchpoint (timeDecay Math_pow now journey) = journey.
Proof. apply touchpoint_Array_map. Qed.

Lemma touchpoint_positionBased journey :
  map touchpoint (positionBased journey) = journey.
Proof. apply touchpoint_Array_map. Qed.



Lemma weights_positionBased_single tp :
  map attribution_weight (positionBased [tp]) = [num_of_Z 1].
Proof. reflexivity. Qed.

Lemma positionWeight_first n : (2 <= n)%nat -> positionWeight n 0 = lit_0_4.
Proof.
  intros Hn. unfold positionWeight.
  destruct (Nat.eqb_spec n 1); [lia|done].
Qed.

Lemma positionWeight_last n :
  (2 <= n)%nat -> positionWeight n (n - 1) = lit_0_4.
Proof.
  intros Hn. unfold positionWeight.
  destruct (Nat.eqb_spec n 1); [lia|].
  destruct (Nat.eqb_spec (n - 1) 0); [done|].
  destruct (Z.eqb_spec (Z.of_nat (n - 1)) (Z.of_nat n - 1)); [done|lia].
Qed.

Lemma positionWeight_middle n i :
  (0 < i)%nat -> (i < n - 1)%nat ->
  positionWeight n i
  = ndiv lit_0_2 (num_of_Z (Z.max 1 (Z.of_nat n - 2))).
Proof.
  intros Hi Hn. unfold positionWeight.
  destruct (Nat.eqb_spec n 1); [lia|].
  destruct (Nat.eqb_spec i 0); [lia|].
  destruct (Z.eqb_spec (Z.of_nat i) (Z.of_nat n - 1)); [lia|done].
Qed.

Lemma weights_positionBased_ends first middle last :
  map attribution_weight (positionBased (first :: middle ++ [last]))
  = lit_0_4
    :: repeat (ndiv lit_0_2
                 (num_of_Z
                    (Z.max 1
                       (Z.of_nat (length (first :: middle ++ [last])) - 2))))
              (length middle)
    ++ [lit_0_4].
Proof.
  unfold positionBased, Array_map.
  set (n := length (first :: middle ++ [last])).
  assert (Hn : n = S (S (length middle))).
  { unfold n. simpl. rewrite length_app. simpl. lia. }
  rewrite map_Array_map_from.
  change (first :: middle ++ [last]) with ([first] ++ middle ++ [last]).
  rewrite !Array_map_from_app.
  cbn [Array_map_from length Nat.add app].
  f_equal; [apply positionWeight_first; lia|]. f_equal.
  - rewrite <- map_const_repeat, <- (Array_map_from_const _ middle 1).
    apply Array_map_from_ext. intros i x Hx.
    apply lookup_lt_Some in Hx. apply positionWeight_middle; lia.
  - f_equal. replace (S (length middle)) with (n - 1)%nat by lia.
    apply positionWeight_last. lia.
Qed.

End AttributionFacts.

(** ** Exact arithmetic: sums of real weights *)

Lemma Rsum_acc (l : list R) (a : R) :
  fold_left Rplus l a = (a + fold_left Rplus l 0)%R.
Proof.
  revert a. induction l as [|x l IH]; intros a; simpl.
  - lra.
  - rewrite (IH (a + x)%R), (IH (0 + x)%R). lra.
Qed.

Lemma Rsum_cons (x : R) (l : list R) :
  fold_left Rplus (x :: l) 0%R = (x + fold_left Rplus l 0)%R.
Proof. simpl. rewrite Rsum_acc. lra. Qed.

Lemma Rsum_app (l1 l2 : list R) :
  fold_left Rplus (l1 ++ l2) 0%R
  = (fold_left Rplus l1 0 + fold_left Rplus l2 0)%R.
Proof. rewrite fold_left_app. apply Rsum_acc. Qed.

Lemma Rsum_repeat (c : R) (n : nat) :
  fold_left Rplus (repeat c n) 0%R = (INR n * c)%R.
Proof.
  induction n as [|n IH].
  - simpl. lra.
  - cbn [repeat]. rewrite Rsum_cons, IH, S_INR. lra.
Qed.





Lemma sum_weights_R (l : list (Weighted R)) :
  sum_weights l = fold_left Rplus (map attribution_weight l) 0%R.
Proof. reflexivity. Qed.

(** Every list of at least two elements has a first element, a middle part
    and a last element. *)
Lemma first_middle_last {A : Type} (l : list A) :
  (2 <= length l)%nat ->
  exists first middle last, l = first :: middle ++ [last].
Proof.
  destruct l as [|first rest]; simpl; [lia|]. intros Hlen.
  destruct (exists_last (l := rest)) as (middle & last & ->).
  - destruct rest; simpl in *; [lia|done].
  - by exists first, middle, last.
Qed.

(** ** Exact arithmetic: the three weighted models *)







Lemma sum_positionBased_R (journey : list Touchpoint) :
  journey <> [] ->
  sum_weights (positionBased (num := R) journey)
  = if (length journey =? 2)%nat then (8 / 10)%R else 1%R.
Proof.
  intros Hne. destruct journey as [|tp [|tp' rest]]; [done| |].
  - rewrite sum_weights_R, weights_positionBased_single. simpl. lra.
  - destruct (first_middle_last (tp :: tp' :: rest)) as (a & middle & z & Heq);
      [simpl; lia|].
    rewrite Heq, sum_weights_R, weights_positionBased_ends.
    rewrite Rsum_cons, Rsum_app, Rsum_repeat.
    assert (Hlen : length (a :: middle ++ [z]) = S (S (length middle))).
    { simpl. rewrite length_app. simpl. lia. }
    rewrite Hlen. cbn [ndiv num_of_Z lit_0_4 lit_0_2 R_Number].
    replace (Z.of_nat (S (S (length middle))) - 2)%Z
      with (Z.of_nat (length middle)) by lia.
    destruct middle as [|m middle].
    + simpl. lra.
    + assert (Hpos : (0 < INR (length (m :: middle)))%R).
      { apply lt_0_INR. simpl. lia. }
      rewrite Z.max_r by (simpl length; lia).
      rewrite <- INR_IZR_INZ.
      destruct (Nat.eqb_spec (S (S (length (m :: middle)))) 2);
        [simpl in *; lia|].
      simpl fold_left. field. lra.
Qed.

(** ** Exact arithmetic: half-life and the clock *)








(** ** binary64: the weights as the program computes them *)



Lemma sum_positionBased_pair_float (first last : Touchpoint) :
  sum_weights (positionBased (num := float) [first; last]) = 0.8%float.
Proof. vm_compute. reflexivity. Qed.

(** Up to 64 touchpoints the linear weights, added up in binary64, are within
    the tolerance of 1. *)
Example linear_model_float_within_tolerance :
  forallb (fun n => within_tolerance_float
                      (sum_weights
                         (linear_model (num := float)
                            (repeat (touch "s1" 0) n))))
          (seq 1 64) = true.
Proof. vm_compute. reflexivity. Qed.

(** The same for the position-based weights, for every length but 2. *)
Example positionBased_float_within_tolerance :
  forallb (fun n => within_tolerance_float
                      (sum_weights
                         (positionBased (num := float)
                            (repeat (touch "s1" 0) n))))
          (1%nat :: seq 3 62) = true.
Proof. vm_compute. reflexivity. Qed.

(** ** The claims about the attribution calculator *)




(** C2.  The position-based weights of a journey of length N: the single
    touchpoint gets 1.0 when N = 1; when N >= 2 the first and the last
    touchpoint get 0.4 each and each of the N - 2 touchpoints between them
    gets 0.2 / max(1, N - 2).  For N = 2 the weights are literally
    [0.4, 0.4], nothing is renormalised, and they add up to 0.8 (in binary64
    and in exact arithmetic). *)
Theorem position_based_literal_weights :
  (forall (num : Type) (N : Number num) (Math_pow : num -> num -> num)
          (now : Z) (tp : Touchpoint) (rest : list Touchpoint),
      position_based
        (calculateAttributionModels Math_pow now (Some (tp :: rest)))
      = positionBased (tp :: rest))
  /\ (forall (num : Type) (N : Number num) (tp : Touchpoint),
         map attribution_weight (positionBased [tp]) = [num_of_Z 1])
  /\ (forall (num : Type) (N : Number num) (first last : Touchpoint)
             (middle : list Touchpoint),
         let n := length (first :: middle ++ [last]) in
         map attribution_weight (positionBased (first :: middle ++ [last]))
         = lit_0_4
           :: repeat (ndiv lit_0_2 (num_of_Z (Z.max 1 (Z.of_nat n - 2))))
                     (n - 2)
           ++ [lit_0_4])
  /\ (forall (num : Type) (N : Number num) (first last : Touchpoint),
         map attribution_weight (positionBased [first; last])
         = [lit_0_4; lit_0_4])
  /\ (forall first last : Touchpoint,
         map attribution_weight (positionBased (num := float) [first; last])
         = [0.4%float; 0.4%float]
         /\ sum_weights (positionBased (num := float) [first; last])
            = 0.8%float)
  /\ (forall first last : Touchpoint,
         sum_weights (positionBased (num := R) [first; last]) = (8 / 10)%R).
Proof.
  split; [reflexivity|].
  split; [intros; apply weights_positionBased_single|].
  split.
  { intros num N first last middle n.
    replace (n - 2)%nat with (length middle)
      by (unfold n; simpl; rewrite length_app; simpl; lia).
    apply weights_positionBased_ends. }
  split; [reflexivity|].
  split.
  - intros first last. split; [reflexivity|].
    apply sum_positionBased_pair_float.
  - intros first last.
    apply (sum_positionBased_R [first; last]). discriminate.
Qed.




(** C8.  On the empty journey, and on an absent one, the calculator returns
    null first-click and last-click results and three empty lists.  It is a
    total function: on every journey it returns a result, whose three lists
    have one entry per touchpoint. *)
Theorem empty_journey_yields_no_attribution :
  forall (num : Type) (N : Number num) (Math_pow : num -> num -> num)
         (now : Z),
    calculateAttributionModels Math_pow now (Some [])
    = {| first_click := None; last_click := None;
         linear := []; time_decay := []; position_based := [] |}
    /\ calculateAttributionModels Math_pow now None
       = {| first_click := None; last_click := None;
            linear := []; time_decay := []; position_based := [] |}
    /\ (forall journey : option (list Touchpoint),
           exists r,
             calculateAttributionModels Math_pow now journey = r
             /\ length (linear r) = length (default [] journey)
             /\ length (time_decay r) = length (default [] journey)
             /\ length (position_based r) = length (default [] journey)).
Proof.
  intros num N Math_pow now. split; [reflexivity|]. split; [reflexivity|].
  intros [[|tp rest]|]; eexists; (split; [reflexivity|]); try done.
  cbn [linear time_decay position_based calculateAttributionModels default].
  unfold linear_model, timeDecay, positionBased.
  by rewrite length_map, !Array_map_length.
Qed.

(** C10.  For every non-empty journey of length N, each of the linear,
    time-decay and position-based results has exactly N elements, in the
    order of the journey, element i being touchpoint i of the journey with an
    [attribution_weight] added; first-click and last-click are the first and
    the last element of the journey. *)
Theorem attribution_outputs_follow_journey :
  forall (num : Type) (N : Number num) (Math_pow : num -> num -> num)
         (now : Z) (journey : list Touchpoint),
    journey <> [] ->
    let r := calculateAttributionModels Math_pow now (Some journey) in
    (length (linear r) = length journey
     /\ map touchpoint (linear r) = journey)
    /\ (length (time_decay r) = length journey
        /\ map touchpoint (time_decay r) = journey)
    /\ (length (position_based r) = length journey
        /\ map touchpoint (position_based r) = journey)
    /\ first_click r = journey !! 0%nat
    /\ last_click r = journey !! (length journey - 1)%nat.
Proof.
  intros num N Math_pow now journey Hne r. unfold r.
  assert (Hlen : forall l : list (Weighted num),
             map touchpoint l = journey -> length l = length journey).
  { intros l <-. by rewrite length_map. }
  destruct journey as [|tp rest]; [done|].
  cbn [calculateAttributionModels first_click last_click linear time_decay
       position_based].
  pose proof (touchpoint_linear_model (tp :: rest)) as Hlin.
  pose proof (touchpoint_timeDecay Math_pow now (tp :: rest)) as Htd.
  pose proof (touchpoint_positionBased (num := num) (tp :: rest)) as Hpb.
  repeat split; auto.
  generalize (length (tp :: rest) - 1)%nat. intros i.
  revert i. generalize (tp :: rest). induction l as [|x l IH]; intros [|i]; simpl; auto.
Qed.

(** C10 at a journey of three touchpoints. *)
Lemma attribution_outputs_follow_journey_witness :
  journey3 <> []
  /\ map touchpoint
       (time_decay
          (calculateAttributionModels Rpower (10 * day) (Some journey3)))
     = journey3
  /\ last_click (calculateAttributionModels Rpower (10 * day) (Some journey3))
     = Some (touch "s2" (9 * day)).
Proof.
  split; [discriminate|].
  destruct (attribution_outputs_follow_journey R _ Rpower (10 * day) journey3)
    as (_ & (_ & Htd) & _ & _ & Hlast); [discriminate|].
  split; [exact Htd | exact Hlast].
Defined.

(** ** Tracking route: session start *)

Section SessionFacts.
Context {num : Type}.
Implicit Types (db : Store num) (data : SessionStartData).

Lemma handleSessionStart_lookup now data db :
  sessions (handleSessionStart now data db) !! d_sessionId data
  = Some
      match sessions db !! d_sessionId data with
      | Some session =>
          {| s_sessionId := s_sessionId session;
             s_visitorId := s_visitorId session;
             s_createdAt := s_createdAt session;
             s_updatedAt := now;
             s_expiresAt := now + 30 * 60 * 1000;
             s_context := s_context session |}
      | None =>
          {| s_sessionId := d_sessionId data;
             s_visitorId := d_visitorId data;
             s_createdAt := now;
             s_updatedAt := now;
             s_expiresAt := now + 30 * 60 * 1000;
             s_context := d_context data |}
      end.
Proof.
  unfold handleSessionStart.
  destruct (sessions db !! d_sessionId data); simpl; apply lookup_insert_eq.
Qed.

Lemma handleSessionStart_lookup_ne now data db other :
  other <> d_sessionId data ->
  sessions (handleSessionStart now data db) !! other = sessions db !! other.
Proof.
  intros Hne. unfold handleSessionStart.
  destruct (sessions db !! d_sessionId data); simpl;
    by rewrite lookup_insert_ne.
Qed.


Lemma handleSessionStart_expiresAt now data db :
  s_expiresAt <$> sessions (handleSessionStart now data db) !! d_sessionId data
  = Some (now + 30 * 60 * 1000)%Z.
Proof.
  rewrite handleSessionStart_lookup.
  by destruct (sessions db !! d_sessionId data).
Qed.

End SessionFacts.

(** C7 (as amended).  Session expiry extension is last-writer-wins: a
    recording at clock reading t sets [expiresAt] to t plus the 30-minute
    window, whatever value is stored; no maximum is taken.  After two
    recordings for one session the expiry is that of the recording applied
    second, which is max(t1, t2) plus the window when the recordings are
    applied in the order of their clock readings. *)
Theorem session_expiry_last_writer_wins :
  forall (num : Type) (db : Store num) (first second : SessionStartData)
         (t_first t_second : Z),
    d_sessionId first = d_sessionId second ->
    exists session,
      sessions
        (handleSessionStart t_second second
           (handleSessionStart t_first first db)) !! d_sessionId first
      = Some session
      /\ s_updatedAt session = t_second
      /\ s_expiresAt session = (t_second + 30 * 60 * 1000)%Z
      /\ ((t_first <= t_second)%Z ->
          s_expiresAt session = (Z.max t_first t_second + 30 * 60 * 1000)%Z).
Proof.
  intros num db first second t_first t_second Hsame.
  eexists. rewrite Hsame, handleSessionStart_lookup, <- Hsame,
    handleSessionStart_lookup.
  split; [reflexivity|]. cbn [s_updatedAt s_expiresAt].
  split; [reflexivity|]. split; [reflexivity|].
  intros Hle. by rewrite Z.max_r.
Qed.

(** C7 at two recordings for session [sess-1], at 1000 and then at 2000. *)
Lemma session_expiry_last_writer_wins_witness :
  d_sessionId (start_data google_context) = d_sessionId (start_data no_context)
  /\ exists session,
       sessions
         (handleSessionStart 2000 (start_data no_context)
            (handleSessionStart 1000 (start_data google_context)
               (empty_store (num := float)))) !! "sess-1"
       = Some session
       /\ s_updatedAt session = 2000%Z
       /\ s_expiresAt session = (2000 + 30 * 60 * 1000)%Z
       /\ ((1000 <= 2000)%Z ->
           s_expiresAt session = (Z.max 1000 2000 + 30 * 60 * 1000)%Z).
Proof.
  split; [reflexivity|].
  apply (session_expiry_last_writer_wins float empty_store
           (start_data google_context) (start_data no_context) 1000 2000).
  reflexivity.
Defined.

(** C7, as stated, fails when the recording with the later clock reading is
    applied first: with t1 = 1000 and t2 = 2000 the session ends up expiring
    at t1 + 30 min, before max(t1, t2) + 30 min. *)
Lemma session_expiry_out_of_order :
  s_expiresAt
    <$> sessions
          (handleSessionStart 1000 (start_data google_context)
             (handleSessionStart 2000 (start_data google_context)
                (empty_store (num := float)))) !! "sess-1"
  = Some (1000 + 30 * 60 * 1000)%Z
  /\ (1000 + 30 * 60 * 1000 < Z.max 1000 2000 + 30 * 60 * 1000)%Z.
Proof.
  split; [|reflexivity].
  apply (handleSessionStart_expiresAt 1000 (start_data google_context)).
Qed.



(** ** Conversion rows: creation and update *)

Section ConversionFacts.
Context {num : Type} `{Number num}.
Variable Math_pow : num -> num -> num.
Variable extractSessionId : ShopifyOrder num -> option string.
Implicit Types (db : Store num) (c : Conversion num).

Lemma conversion_create_Returned (data : nat -> Conversion num) db db' c :
  conversion_create data db = Returned db' c ->
  c = data (next_id db)
  /\ (c_conversionId c ∉ map c_conversionId (conversions db))
  /\ is_Some (sessions db !! c_sessionId c)
  /\ sessions db' = sessions db
  /\ conversions db' = conversions db ++ [c]
  /\ lineItems db' = lineItems db
  /\ events db' = events db.
Proof.
  unfold conversion_create.
  destruct (decide (_ ∈ _)) as [|Hfresh]; [done|].
  destruct (sessions db !! _) as [session|] eqn:Hsession; [|done].
  intros [= <- <-]. rewrite Hsession. by repeat split.
Qed.










End ConversionFacts.

(** ** The claim about recording conversions *)




(** ** Analytics route: the funnel *)

Section FunnelFacts.
Context {num : Type} `{Number num}.
Implicit Types (db : Store num) (funnelData : list (FunnelRow num)).

(** The sessions counted for a step are those with at least one event of the
    step's name created inside the window. *)
Lemma elem_of_groupBy_sessionId eventName startDate endDate db sessionId :
  sessionId ∈ groupBy_sessionId eventName startDate endDate db
  <-> exists e, e ∈ events db
                /\ e_sessionId e = sessionId
                /\ e_eventName e = eventName
                /\ (startDate <= e_createdAt e <= endDate)%Z.
Proof.
  unfold groupBy_sessionId. rewrite elem_of_list_to_set, list_elem_of_fmap.
  split.
  - intros (e & -> & He). apply list_elem_of_filter in He as ((? & ? & ?) & ?).
    by exists e.
  - intros (e & He & <- & Hname & Hlo & Hhi). exists e. split; [done|].
    apply list_elem_of_filter. done.
Qed.

Lemma visitors_at_funnelRows steps startDate endDate db i :
  visitors_at (funnelRows steps startDate endDate db) i
  = match steps !! i with
    | Some step =>
        Z.of_nat
          (size (groupBy_sessionId (eventPattern step) startDate endDate db))
    | None => 0%Z
    end.
Proof.
  unfold visitors_at, funnelRows. rewrite list_lookup_fmap.
  by destruct (steps !! i).
Qed.

End FunnelFacts.

Lemma Array_map_from_map {A B C : Type} (g : A -> B) (f : B -> nat -> C)
    (l : list A) (start : nat) :
  Array_map_from start f (map g l)
  = Array_map_from start (fun x i => f (g x) i) l.
Proof.
  revert start. induction l as [|x l IH]; intros start; simpl; [done|].
  by rewrite IH.
Qed.

(** C5 (as amended).  For every list of funnel steps and every window, with
    visitors[i] the number of distinct sessions that have an event of step
    i's name created in the window: step 0 reports rate 100 and drop-off 0;
    a later step i reports rate visitors[i] / visitors[0] * 100 when
    visitors[0] > 0, and rate 0 when visitors[0] = 0, and drop-off
    visitors[i-1] - visitors[i].  Counts 100, 60, 20, 5 give, in binary64,
    rates 100, 60, 20, 5 and drop-offs 0, 40, 40, 15. *)
Theorem funnel_rates_relative_to_first_step :
  (forall (num : Type) (N : Number num) (steps : list FunnelStep)
          (startDate endDate : Z) (db : Store num),
      let count := fun step =>
        Z.of_nat
          (size (groupBy_sessionId (eventPattern step) startDate endDate db)) in
      let visitors_of := fun i =>
        match steps !! i with Some step => count step | None => 0%Z end in
      funnelFor steps startDate endDate db
      = Array_map
          (fun step i =>
             {| step := name step;
                visitors := count step;
                conversionRate :=
                  if (i =? 0)%nat then num_of_Z 100
                  else if (0 <? visitors_of 0%nat)%Z
                       then nmul (ndiv (num_of_Z (count step))
                                       (num_of_Z (visitors_of 0%nat)))
                                 (num_of_Z 100)
                       else num_of_Z 0;
                dropOff :=
                  if (i =? 0)%nat then 0%Z
                  else (visitors_of (i - 1)%nat - count step)%Z |})
          steps)
  /\ (forall (num : Type) (eventName : string) (startDate endDate : Z)
             (db : Store num) (sessionId : string),
         sessionId ∈ groupBy_sessionId eventName startDate endDate db
         <-> exists e, e ∈ events db
                       /\ e_sessionId e = sessionId
                       /\ e_eventName e = eventName
                       /\ (startDate <= e_createdAt e <= endDate)%Z)
  /\ (forall (num : Type) (N : Number num) (startDate endDate : Z)
             (db : Store num),
         getFunnelData startDate endDate db
         = funnelFor steps startDate endDate db)
  /\ funnelFor (num := float) example_steps 0 10
       (store_of_events example_funnel_events)
     = [ {| step := "Landing"; visitors := 100;
            conversionRate := 100%float; dropOff := 0 |};
         {| step := "ProductView"; visitors := 60;
            conversionRate := 60%float; dropOff := 40 |};
         {| step := "AddToCart"; visitors := 20;
            conversionRate := 20%float; dropOff := 40 |};
         {| step := "Purchase"; visitors := 5;
            conversionRate := 5%float; dropOff := 15 |} ].
Proof.
  split; [|split; [|split]].
  - intros num N steps startDate endDate db count visitors_of.
    unfold funnelFor, calculateRates, Array_map.
    etrans; [apply (Array_map_from_map _ _ steps 0)|].
    apply Array_map_from_ext. intros i funnelStep _. cbn [Nat.add].
    cbn [step visitors dropOff].
    rewrite !visitors_at_funnelRows. fold count. fold (visitors_of 0%nat).
    fold (visitors_of (i - 1)%nat).
    f_equal. by destruct i.
  - intros num. apply elem_of_groupBy_sessionId.
  - reflexivity.
  - vm_compute. reflexivity.
Qed.

(** C5, as stated, fails when no session reaches step 0: the rate reported
    for a later step is 0, while visitors[i] / visitors[0] * 100 is a
    division by zero (infinity in binary64 for 2 / 0 * 100). *)
Lemma funnel_rate_without_landing_views :
  map visitors
    (getFunnelData (num := float) 0 10 (store_of_events no_landing_events))
  = [0; 2; 0; 0; 0]%Z
  /\ map conversionRate
       (getFunnelData (num := float) 0 10 (store_of_events no_landing_events))
     = [100; 0; 0; 0; 0]%float
  /\ (float_of_Z 2 / float_of_Z 0 * float_of_Z 100)%float = infinity
  /\ (0 =? infinity)%float = false.
Proof. repeat split; vm_compute; reflexivity. Qed.

(** * Further properties of the routes *)

(** ** Journey summary fields *)

Lemma size_list_to_set_le (l : list (option string)) :
  size (list_to_set (C := gset (option string)) l) <= length l.
Proof.
  induction l as [|x l IH].
  - change (size (∅ : gset (option string)) <= 0).
    by rewrite size_empty.
  - rewrite list_to_set_cons, size_union_alt, size_singleton. simpl.
    assert (size (list_to_set (C := gset (option string)) l ∖ {[x]})
            <= size (list_to_set (C := gset (option string)) l))
      by (by apply subseteq_size, subseteq_difference_l).
    lia.
Qed.

(** X1.  For a non-empty journey [calculateSessionsToConversion] is at least
    1 and at most the number of touchpoints; it is 1 exactly when all
    touchpoints carry the same [session_id] (touchpoints without one count
    as one more session together); and it does not depend on the order of
    the touchpoints. *)
Theorem sessions_to_conversion_bounds (journey : list Touchpoint) :
  journey <> [] ->
  (1 <= calculateSessionsToConversion (Some journey)
     <= Z.of_nat (length journey))%Z
  /\ (calculateSessionsToConversion (Some journey) = 1%Z
      <-> forall a b, a ∈ journey -> b ∈ journey ->
                      tp_session_id a = tp_session_id b)
  /\ (forall journey',
         journey ≡ₚ journey' ->
         calculateSessionsToConversion (Some journey')
         = calculateSessionsToConversion (Some journey)).
Proof.
  intros Hne. destruct journey as [|tp rest]; [done|].
  unfold calculateSessionsToConversion.
  set (ids := list_to_set (map tp_session_id (tp :: rest))
              : gset (option string)).
  assert (Hin : tp_session_id tp ∈ ids).
  { unfold ids. apply elem_of_list_to_set, list_elem_of_here. }
  assert (Hpos : size ids <> 0).
  { apply size_non_empty_iff. intros Hempty. rewrite Hempty in Hin.
    by apply not_elem_of_empty in Hin. }
  split; [|split].
  - pose proof (size_list_to_set_le (map tp_session_id (tp :: rest))) as Hle.
    rewrite length_map in Hle. fold ids in Hle. lia.
  - split.
    + intros Hone a b Ha Hb.
      apply (size_singleton_inv ids); [lia| |];
        unfold ids; apply elem_of_list_to_set, list_elem_of_fmap; eauto.
    + intros Hsame.
      assert (Heq : ids = {[tp_session_id tp]}).
      { apply set_eq. intros x. rewrite elem_of_singleton. split.
        - unfold ids. rewrite elem_of_list_to_set, list_elem_of_fmap.
          intros (a & -> & Ha). apply Hsame; [done|]. apply list_elem_of_here.
        - by intros ->. }
      by rewrite Heq, size_singleton.
  - intros [|tp' rest'] Hperm.
    + by apply Permutation_nil_r in Hperm.
    + do 2 f_equal. apply list_to_set_perm_L. by rewrite Hperm.
Qed.

Lemma sessions_to_conversion_bounds_witness :
  journey3 <> []
  /\ (1 <= calculateSessionsToConversion (Some journey3)
        <= Z.of_nat (length journey3))%Z.
Proof.
  split; [discriminate|].
  apply (sessions_to_conversion_bounds journey3). discriminate.
Defined.


(** ** Exact arithmetic: size and order of the weights *)











(** ** Conversion route: what [processConversion] writes *)

Section ProcessConversionFacts.
Context {num : Type} `{Number num}.
Variable Math_pow : num -> num -> num.
Implicit Types (db : Store num) (c : Conversion num).



(** X6.  The summary fields of the row [processConversion] stores agree with
    the journey: [touchpointCount] is its length, the first-click and
    last-click UTM fields are those of its first and last touchpoint (absent
    for an empty or missing journey), [sessionsToConversion] never exceeds
    [touchpointCount], and [daysToPurchase] is absent exactly when there is
    no touchpoint. *)
Theorem processConversion_summary now (orderData : OrderData num)
    attribution customerJourney db db' c :
  processConversion Math_pow now orderData attribution customerJourney db
  = Returned db' c ->
  let journey := default [] customerJourney in
  c_touchpointCount c = Some (Z.of_nat (length journey))
  /\ c_firstClickUtmSource c = head journey ≫= tp_utm_source
  /\ c_firstClickUtmMedium c = head journey ≫= tp_utm_medium
  /\ c_firstClickUtmCampaign c = head journey ≫= tp_utm_campaign
  /\ c_lastClickUtmSource c = last journey ≫= tp_utm_source
  /\ c_lastClickUtmMedium c = last journey ≫= tp_utm_medium
  /\ c_lastClickUtmCampaign c = last journey ≫= tp_utm_campaign
  /\ (exists sessionCount,
         c_sessionsToConversion c = Some sessionCount
         /\ (0 <= sessionCount <= Z.of_nat (length journey))%Z)
  /\ (c_daysToPurchase c = None <-> journey = []).
Proof.
  unfold processConversion.
  destruct (conversion_create _ db) as [db1 c1|db1 e] eqn:Hcreate; [|done].
  apply conversion_create_Returned in Hcreate as (Hc & _).
  intros [= _ <-]. subst c1.
  cbn [c_touchpointCount c_firstClickUtmSource c_firstClickUtmMedium
       c_firstClickUtmCampaign c_lastClickUtmSource c_lastClickUtmMedium
       c_lastClickUtmCampaign c_sessionsToConversion c_daysToPurchase].
  destruct customerJourney as [[|tp rest]|].
  - repeat split; try done. exists 0%Z. split; [done|lia].
  - rewrite calculateAttributionModels_nonempty by done.
    cbn [first_click last_click default length_or_0].
    pose proof (sessions_to_conversion_bounds (tp :: rest)) as (Hb & _);
      [done|].
    repeat split; try done.
    exists (calculateSessionsToConversion (Some (tp :: rest))).
    split; [done|]. split; [lia|exact (proj2 Hb)].
  - repeat split; try done. exists 0%Z. split; [done|lia].
Qed.

End ProcessConversionFacts.

Lemma processConversion_summary_witness :
  exists db' c,
    processConversion Rpower 1000 order_1001 attribution_sess_1
      (Some journey3) store_with_session
    = Returned db' c
    /\ c_touchpointCount c = Some 3%Z
    /\ c_lastClickUtmSource c = Some "google"
    /\ c_sessionsToConversion c = Some 2%Z.
Proof.
  eexists _, _. split; [reflexivity|].
  destruct (processConversion_summary Rpower 1000 order_1001
              attribution_sess_1 (Some journey3) store_with_session _ _
              eq_refl) as (Hcount & _ & _ & _ & Hlast & _).
  split; [exact Hcount|]. split; [exact Hlast|]. vm_compute. reflexivity.
Defined.

Lemma processConversion_line_items {num : Type} `{Number num}
    (Math_pow : num -> num -> num) now (orderData : OrderData num)
    attribution customerJourney (db db' : Store num) c :
  processConversion Math_pow now orderData attribution customerJourney db
  = Returned db' c ->
  exists items,
    lineItems db' = lineItems db ++ items
    /\ Forall (fun item => li_quantity item <> 0%Z
                           /\ (falsy (li_price item) = false
                               \/ li_price item = num_of_Z 0))
              items.
Proof.
  unfold processConversion.
  destruct (conversion_create _ db) as [db1 c1|db1 e] eqn:Hcreate; [|done].
  apply conversion_create_Returned in Hcreate as (_ & _ & _ & _ & _ & Hli & _).
  intros [= <- _].
  destruct (line_items orderData) as [[|item items]|];
    try (exists []; by rewrite app_nil_r).
  eexists. cbn [lineItems lineItem_createMany]. rewrite Hli.
  split; [reflexivity|].
  match goal with
  | |- context [map ?f items] =>
      change (Forall (fun item => li_quantity item <> 0%Z
                                  /\ (falsy (li_price item) = false
                                      \/ li_price item = num_of_Z 0))
                     (map f (item :: items)))
  end.
  apply List.Forall_map, Forall_forall. intros it _.
  cbn [li_quantity li_price]. split.
  - destruct (oli_quantity it) as [q|]; [|done].
    destruct (decide (q = 0%Z)); done.
  - destruct (oli_price it) as [p|]; [|by right].
    destruct (falsy p) eqn:Hp; [by right|by left].
Qed.

Lemma float_not_falsy_not_nan (p : float) :
  falsy p = false \/ p = num_of_Z 0 -> (p =? p)%float = true.
Proof.
  intros [Hp| ->]; [|reflexivity].
  cbn [falsy float_Number] in Hp.
  destruct (p =? 0)%float; [done|].
  by destruct (p =? p)%float.
Qed.

(** X7.  The line items [processConversion] stores never have quantity 0 (a
    missing or zero quantity becomes 1), and their price is never a falsy
    number other than 0: a missing, zero or NaN price becomes 0, so in
    binary64 no stored price is NaN. *)
Theorem processConversion_line_item_defaults :
  (forall (num : Type) (N : Number num) (Math_pow : num -> num -> num) now
          (orderData : OrderData num) attribution customerJourney
          (db db' : Store num) c,
      processConversion Math_pow now orderData attribution customerJourney db
      = Returned db' c ->
      exists items,
        lineItems db' = lineItems db ++ items
        /\ Forall (fun item => li_quantity item <> 0%Z
                               /\ (falsy (li_price item) = false
                                   \/ li_price item = num_of_Z 0))
                  items)
  /\ (forall (Math_pow : float -> float -> float) now
             (orderData : OrderData float) attribution customerJourney
             (db db' : Store float) c,
         processConversion Math_pow now orderData attribution customerJourney db
         = Returned db' c ->
         exists items,
           lineItems db' = lineItems db ++ items
           /\ Forall (fun item => (li_price item =? li_price item)%float
                                  = true)
                     items).
Proof.
  split.
  - intros num N. apply processConversion_line_items.
  - intros Math_pow now orderData attribution customerJourney db db' c Hret.
    apply processConversion_line_items in Hret as (items & Hitems & Hall).
    exists items. split; [done|].
    eapply Forall_impl; [exact Hall|].
    intros item [_ Hprice]. by apply float_not_falsy_not_nan.
Qed.

(** X7 at an order with one line item that names neither quantity nor
    price. *)
Lemma processConversion_line_item_defaults_witness :
  exists db' c,
    processConversion Rpower 1000 order_with_item attribution_sess_1 None
      store_with_session
    = Returned db' c
    /\ map li_quantity (lineItems db') = [1%Z]
    /\ map li_price (lineItems db') = [0%R].
Proof.
  eexists _, _. split; [reflexivity|].
  destruct (proj1 processConversion_line_item_defaults R _ Rpower 1000%Z
              order_with_item attribution_sess_1 None store_with_session
              _ _ eq_refl) as (items & Hitems & _).
  split; reflexivity.
Defined.

(** ** Webhook route: order life cycle *)

Section WebhookFacts.
Context {num : Type}.
Variable extractSessionId : ShopifyOrder num -> option string.
Implicit Types (db : Store num) (c : Conversion num)
  (order : ShopifyOrder num).

Lemma conversion_updateMany_other_tables orderId
    (data : Conversion num -> Conversion num) db :
  sessions (conversion_updateMany orderId data db) = sessions db
  /\ lineItems (conversion_updateMany orderId data db) = lineItems db
  /\ events (conversion_updateMany orderId data db) = events db
  /\ next_id (conversion_updateMany orderId data db) = next_id db.
Proof. done. Qed.







Lemma elem_of_conversion_updateMany orderId
    (data : Conversion num -> Conversion num) db c' :
  c' ∈ conversions (conversion_updateMany orderId data db) ->
  exists c, c ∈ conversions db
            /\ c' = if decide (c_orderId c = Some orderId) then data c else c.
Proof.
  unfold conversion_updateMany. cbn [conversions].
  intros Hc'. apply list_elem_of_fmap in Hc' as (c & -> & Hc). eauto.
Qed.

(** X11.  When [orders/create] returns and a non-empty session id was found
    on the order, that session exists and its UTM values are copied into the
    first-click and last-click fields of every conversion row that carries
    the order id, the new row and older rows alike; those rows get
    [touchpointCount] 1, [sessionsToConversion] 1 and the whole days from
    the session's creation to the clock reading. *)
Theorem handleOrderCreate_copies_session_attribution now order db db' id
    sessionId :
  handleOrderCreate extractSessionId now order db = Returned db' id ->
  extractSessionId order = Some sessionId ->
  sessionId <> "" ->
  exists session,
    sessions db !! sessionId = Some session
    /\ (exists c, c ∈ conversions db'
                  /\ c_conversionId c = id
                  /\ c_sessionId c = sessionId
                  /\ c_orderId c = Some (pretty (o_id order)))
    /\ (forall c,
           c ∈ conversions db' ->
           c_orderId c = Some (pretty (o_id order)) ->
           c_firstClickUtmSource c = utmSource (s_context session)
           /\ c_firstClickUtmMedium c = utmMedium (s_context session)
           /\ c_firstClickUtmCampaign c = utmCampaign (s_context session)
           /\ c_lastClickUtmSource c = utmSource (s_context session)
           /\ c_lastClickUtmMedium c = utmMedium (s_context session)
           /\ c_lastClickUtmCampaign c = utmCampaign (s_context session)
           /\ c_touchpointCount c = Some 1%Z
           /\ c_sessionsToConversion c = Some 1%Z
           /\ c_daysToPurchase c
              = Some ((now - s_createdAt session) / day)%Z).
Proof.
  intros Hcall Hextract Hne. unfold handleOrderCreate in Hcall.
  rewrite Hextract in Hcall.
  destruct (conversion_create _ db) as [db1 c1|db1 e] eqn:Hcreate; [|done].
  apply conversion_create_Returned in Hcreate
    as (Hc & _ & Hsession & Hs & Hrows & _ & _).
  rewrite decide_False in Hcall by done. injection Hcall as Hdb' Hid.
  assert (Hsid : c_sessionId c1 = sessionId).
  { rewrite Hc. cbn. by rewrite decide_False. }
  rewrite Hsid in Hsession. destruct Hsession as [session Hsession].
  exists session. split; [done|].
  set (db2 := match o_line_items order with
              | Some items => lineItem_createMany _ db1
              | None => db1
              end) in Hdb'.
  assert (Hdb2 : sessions db2 = sessions db
                 /\ conversions db2 = conversions db ++ [c1]).
  { unfold db2. by destruct (o_line_items order). }
  destruct Hdb2 as [Hs2 Hrows2].
  unfold updateSessionAttribution in Hdb'.
  rewrite Hs2, Hsession in Hdb'. subst db'. split.
  - exists (with_session_attribution session
              ((now - s_createdAt session) / (1000 * 60 * 60 * 24))%Z c1).
    split.
    + unfold conversion_updateMany. cbn [conversions].
      rewrite Hrows2, map_app. apply elem_of_app. right. cbn [map].
      rewrite decide_True by (by rewrite Hc). apply list_elem_of_here.
    + cbn. rewrite <- Hid, Hsid. by rewrite Hc.
  - intros c Hin Horder.
    apply elem_of_conversion_updateMany in Hin as (c0 & _ & ->).
    destruct (decide (c_orderId c0 = Some (pretty (o_id order)))); [|done].
    by repeat split.
Qed.

End WebhookFacts.

(** X11 at order 1001, whose session [sess-1] carries Google click
    context. *)
Lemma handleOrderCreate_copies_session_attribution_witness :
  exists db',
    handleOrderCreate extract_sess_1 700 (shopify_order 1001 50)
      store_with_session
    = Returned db' "shopify_1001"
    /\ map c_firstClickUtmSource (conversions db') = [Some "google"]
    /\ map c_daysToPurchase (conversions db') = [Some 0%Z].
Proof.
  eexists. split; [reflexivity|].
  destruct (handleOrderCreate_copies_session_attribution extract_sess_1
              700%Z (shopify_order 1001 50) store_with_session _ _ "sess-1"
              eq_refl eq_refl) as (session & _ & _ & _); [discriminate|].
  split; reflexivity.
Defined.

(** ** Tracking route: page views, interactions and conversions *)

Section TrackingFacts.
Context {num : Type}.
Implicit Types (db : Store num) (tdb : TrackingStore num).

Lemma event_create_spec (row : Event) db :
  match event_create row db with
  | Returned db' _ =>
      is_Some (sessions db !! e_sessionId row)
      /\ events db' = events db ++ [row]
      /\ sessions db' = sessions db
      /\ conversions db' = conversions db
      /\ lineItems db' = lineItems db
  | Thrown db' e =>
      db' = db /\ e = ForeignKeyConstraintFailed "sessionId"
      /\ sessions db !! e_sessionId row = None
  end.
Proof.
  unfold event_create. destruct (sessions db !! e_sessionId row) eqn:Hs.
  - by repeat split.
  - done.
Qed.




End TrackingFacts.

(** ** Sessions over many requests *)

Section SessionRuns.
Context {num : Type}.
Implicit Types (db : Store num) (data : SessionStartData)
  (calls : list (Z * SessionStartData)).

Lemma handleSessionStart_consistent now data db :
  sessions_consistent db -> sessions_consistent (handleSessionStart now data db).
Proof.
  intros Hdb sid s Hs.
  destruct (decide (sid = d_sessionId data)) as [->|Hne].
  - rewrite handleSessionStart_lookup in Hs. injection Hs as <-.
    destruct (sessions db !! d_sessionId data) as [old|] eqn:Hold.
    + destruct (Hdb _ _ Hold) as [Hid _]. by split.
    + by split.
  - rewrite handleSessionStart_lookup_ne in Hs by done. by apply Hdb.
Qed.

Lemma handleSessionStart_keeps now data db sid s :
  sessions db !! sid = Some s ->
  exists s',
    sessions (handleSessionStart now data db) !! sid = Some s'
    /\ s_sessionId s' = s_sessionId s
    /\ s_visitorId s' = s_visitorId s
    /\ s_createdAt s' = s_createdAt s
    /\ s_context s' = s_context s.
Proof.
  intros Hs. destruct (decide (sid = d_sessionId data)) as [->|Hne].
  - rewrite handleSessionStart_lookup, Hs. by eexists.
  - rewrite handleSessionStart_lookup_ne by done. by exists s.
Qed.

(** X15.  Over any run of [session_start] requests, with any clock
    readings: a session that exists is never removed and keeps its
    [sessionId], [visitorId], [createdAt] and captured context; and if every
    row is stored under its own id and expires 30 minutes after its last
    update, that still holds after the run (it holds of the empty store). *)
Theorem session_runs_keep_first_touch calls db :
  (forall sid s,
      sessions db !! sid = Some s ->
      exists s',
        sessions (session_starts calls db) !! sid = Some s'
        /\ s_sessionId s' = s_sessionId s
        /\ s_visitorId s' = s_visitorId s
        /\ s_createdAt s' = s_createdAt s
        /\ s_context s' = s_context s)
  /\ (sessions_consistent db -> sessions_consistent (session_starts calls db))
  /\ sessions_consistent (session_starts calls (empty_store (num := num))).
Proof.
  assert (Hinv : forall db0, sessions_consistent db0 ->
                             sessions_consistent (session_starts calls db0)).
  { induction calls as [|[now data] calls IH]; intros db0 Hdb0; [done|].
    apply IH. by apply handleSessionStart_consistent. }
  split; [|split].
  - clear Hinv. revert db.
    induction calls as [|[now data] calls IH]; intros db sid s Hs.
    + by exists s.
    + destruct (handleSessionStart_keeps now data db sid s Hs)
        as (s1 & Hs1 & Hid1 & Hv1 & Hc1 & Hx1).
      destruct (IH _ _ _ Hs1) as (s2 & Hs2 & Hid2 & Hv2 & Hc2 & Hx2).
      exists s2. split; [exact Hs2|]. by rewrite Hid2, Hv2, Hc2, Hx2.
  - apply Hinv.
  - apply Hinv. apply map_Forall_empty.
Qed.

(** X16.  The dashboard's active users at time [t] are the sessions updated
    no more than 30 minutes before [t].  On a store whose rows expire 30
    minutes after their last update these are exactly the sessions not yet
    expired at [t]; and a session just started at [now] is counted at every
    time up to [now] + 30 minutes: it adds one to the count unless it was
    already counted. *)
Theorem active_users_are_unexpired_sessions db t :
  (sessions_consistent db ->
   activeUsers t db
   = size (filter (fun kv => (t <= s_expiresAt kv.2)%Z) (sessions db)))
  /\ (forall now data,
         (t <= now + 30 * 60 * 1000)%Z ->
         activeUsers t (handleSessionStart now data db)
         = match sessions db !! d_sessionId data with
           | Some s =>
               if decide (t - 30 * 60 * 1000 <= s_updatedAt s)%Z
               then activeUsers t db
               else S (activeUsers t db)
           | None => S (activeUsers t db)
           end).
Proof.
  split.
  - intros Hdb. unfold activeUsers. f_equal.
    apply map_filter_ext. intros sid s Hs. cbn.
    destruct (Hdb _ _ Hs) as [_ Hexp]. lia.
  - intros now data Ht. unfold activeUsers, handleSessionStart.
    set (P := fun kv : string * Session =>
                (t - 30 * 60 * 1000 <= s_updatedAt kv.2)%Z).
    destruct (sessions db !! d_sessionId data) as [s|] eqn:Hs;
      cbn [sessions set_sessions]; rewrite map_filter_insert_True
        by (unfold P; cbn; lia).
    + destruct (decide (t - 30 * 60 * 1000 <= s_updatedAt s)%Z) as [Hact|Hin].
      * apply map_size_insert_Some. exists s.
        by apply map_lookup_filter_Some.
      * apply map_size_insert_None. apply map_lookup_filter_None. right.
        intros s' Hs'. rewrite Hs in Hs'. injection Hs' as <-. done.
    + apply map_size_insert_None. apply map_lookup_filter_None. by left.
Qed.

End SessionRuns.

(** ** The funnel as events arrive *)

Lemma Array_map_from_lookup {A B : Type} (f : A -> nat -> B) (l : list A)
    (start i : nat) :
  Array_map_from start f l !! i = (fun x => f x (start + i)%nat) <$> l !! i.
Proof.
  revert start i. induction l as [|x l IH]; intros start [|i]; simpl; try done.
  - by rewrite Nat.add_0_r.
  - rewrite IH. by replace (S start + i)%nat with (start + S i)%nat by lia.
Qed.

Section FunnelRuns.
Context {num : Type} `{Number num}.
Implicit Types (db : Store num) (funnelData : list (FunnelRow num))
  (steps : list FunnelStep).

Lemma calculateRates_lookup funnelData i :
  calculateRates funnelData !! i
  = (fun row =>
       {| step := step row;
          visitors := visitors row;
          conversionRate :=
            if (i =? 0)%nat then num_of_Z 100
            else if (0 <? visitors_at funnelData 0)%Z
                 then nmul (ndiv (num_of_Z (visitors row))
                                 (num_of_Z (visitors_at funnelData 0)))
                           (num_of_Z 100)
                 else num_of_Z 0;
          dropOff :=
            if (0 <? i)%nat
            then (visitors_at funnelData (i - 1) - visitors row)%Z
            else dropOff row |})
    <$> funnelData !! i.
Proof. unfold calculateRates, Array_map. by rewrite Array_map_from_lookup. Qed.

Lemma visitors_at_calculateRates funnelData i :
  visitors_at (calculateRates funnelData) i = visitors_at funnelData i.
Proof.
  unfold visitors_at. rewrite calculateRates_lookup.
  by destruct (funnelData !! i).
Qed.

Lemma groupBy_sessionId_event_create (row : Event) db db' u eventName
    startDate endDate :
  event_create row db = Returned db' u ->
  groupBy_sessionId eventName startDate endDate db'
  = if decide (e_eventName row = eventName
               /\ (startDate <= e_createdAt row)%Z
               /\ (e_createdAt row <= endDate)%Z)
    then {[e_sessionId row]}
         ∪ groupBy_sessionId eventName startDate endDate db
    else groupBy_sessionId eventName startDate endDate db.
Proof.
  intros Hcreate. pose proof (event_create_spec row db) as Hspec.
  rewrite Hcreate in Hspec. destruct Hspec as (_ & Hev & _).
  unfold groupBy_sessionId. rewrite Hev, filter_app, map_app,
    list_to_set_app_L.
  destruct (decide (e_eventName row = eventName
                    /\ (startDate <= e_createdAt row)%Z
                    /\ (e_createdAt row <= endDate)%Z)) as [Hin|Hout].
  - rewrite filter_cons_True, filter_nil by done. cbn [map].
    rewrite list_to_set_singleton_L. apply (comm_L (∪)).
  - rewrite filter_cons_False, filter_nil by done. cbn [map].
    apply (right_id_L ∅ (∪)).
Qed.

(** X17.  The funnel counts each session once per step.  When one more event
    is stored, no step's visitor count goes down and none goes up by more
    than one; and the whole funnel is unchanged when the event's name is no
    step's pattern, when the event is created outside the window, or when
    its session already had an event of that name in the window. *)
Theorem funnel_counts_each_session_once (row : Event) db db' u steps
    startDate endDate :
  event_create row db = Returned db' u ->
  (forall i,
      (visitors_at (funnelFor steps startDate endDate db) i
       <= visitors_at (funnelFor steps startDate endDate db') i
       <= visitors_at (funnelFor steps startDate endDate db) i + 1)%Z)
  /\ (e_eventName row ∉ map eventPattern steps
      \/ ~ (startDate <= e_createdAt row <= endDate)%Z
      \/ e_sessionId row
         ∈ groupBy_sessionId (e_eventName row) startDate endDate db ->
      funnelFor steps startDate endDate db'
      = funnelFor steps startDate endDate db).
Proof.
  intros Hcreate. split.
  - intros i. unfold funnelFor. rewrite !visitors_at_calculateRates,
      !visitors_at_funnelRows.
    destruct (steps !! i) as [funnelStep|]; [|lia].
    rewrite (groupBy_sessionId_event_create row db db' u) by done.
    destruct (decide _); [|lia].
    destruct (decide (e_sessionId row
                      ∈ groupBy_sessionId (eventPattern funnelStep)
                          startDate endDate db)) as [Hin|Hnotin].
    + rewrite subseteq_union_1_L
        by (by apply elem_of_subseteq_singleton). lia.
    + rewrite size_union by (by apply disjoint_singleton_l).
      rewrite size_singleton. lia.
  - intros Hsame. unfold funnelFor, funnelRows. f_equal.
    apply map_ext_in. intros funnelStep Hstep.
    rewrite (groupBy_sessionId_event_create row db db' u) by done.
    destruct (decide _) as [(Hname & Hlo & Hhi)|]; [|done].
    destruct Hsame as [Hnot|[Hout|Hcounted]].
    + exfalso. apply Hnot. rewrite Hname. apply list_elem_of_fmap.
      exists funnelStep. split; [done|]. by apply list_elem_of_In.
    + exfalso. apply Hout. lia.
    + rewrite Hname in Hcounted.
      by rewrite subseteq_union_1_L by (by apply elem_of_subseteq_singleton).
Qed.

Lemma dropOff_sum_from funnelData (pre suf : list (FunnelRow num)) :
  funnelData = pre ++ suf ->
  (1 <= length pre)%nat ->
  foldr Z.add 0%Z
    (map dropOff
       (Array_map_from (length pre)
          (fun row i =>
             {| step := step row;
                visitors := visitors row;
                conversionRate :=
                  if (i =? 0)%nat then num_of_Z 100
                  else if (0 <? visitors_at funnelData 0)%Z
                       then nmul (ndiv (num_of_Z (visitors row))
                                       (num_of_Z (visitors_at funnelData 0)))
                                 (num_of_Z 100)
                       else num_of_Z 0;
                dropOff :=
                  if (0 <? i)%nat
                  then (visitors_at funnelData (i - 1) - visitors row)%Z
                  else dropOff row |})
          suf))
  = (visitors_at funnelData (length pre - 1)
     - visitors_at funnelData (length funnelData - 1))%Z.
Proof.
  revert pre. induction suf as [|x suf IH]; intros pre Hfd Hpre.
  - rewrite app_nil_r in Hfd. subst. simpl. lia.
  - cbn [Array_map_from map foldr dropOff].
    specialize (IH (pre ++ [x])).
    rewrite length_app, Nat.add_1_r in IH. cbn [length] in IH.
    rewrite IH; [|by rewrite <- app_assoc|lia].
    replace (S (length pre) - 1)%nat with (length pre) by lia.
    assert (Hx : visitors_at funnelData (length pre) = visitors x).
    { unfold visitors_at. subst funnelData.
      by rewrite list_lookup_middle. }
    destruct (Nat.ltb_spec 0 (length pre)); [|lia].
    rewrite Hx. lia.
Qed.

(** X18.  The drop-offs reported by the funnel add up to the visitors of the
    first step minus the visitors of the last step. *)
Theorem funnel_dropoffs_telescope steps startDate endDate db :
  foldr Z.add 0%Z (map dropOff (funnelFor steps startDate endDate db))
  = (visitors_at (funnelFor steps startDate endDate db) 0
     - visitors_at (funnelFor steps startDate endDate db)
         (length steps - 1))%Z.
Proof.
  unfold funnelFor. rewrite !visitors_at_calculateRates.
  assert (Hlen : length (funnelRows steps startDate endDate db)
                 = length steps) by (unfold funnelRows; by rewrite length_map).
  rewrite <- Hlen.
  destruct (funnelRows steps startDate endDate db) as [|row rows] eqn:Hrows.
  - done.
  - unfold calculateRates, Array_map. cbn [Array_map_from map foldr dropOff].
    pose proof (dropOff_sum_from (row :: rows) [row] rows eq_refl
                  (le_n 1)) as Hsum.
    cbn [length] in Hsum. rewrite Hsum. clear Hsum.
    assert (Hzero : dropOff row = 0%Z).
    { assert (Hin : row ∈ funnelRows steps startDate endDate db)
        by (rewrite Hrows; apply list_elem_of_here).
      unfold funnelRows in Hin.
      by apply list_elem_of_fmap in Hin as (? & -> & _). }
    cbn [length Nat.ltb Nat.leb]. rewrite Hzero.
    replace (1 - 1)%nat with 0%nat by lia. lia.
Qed.

End FunnelRuns.

(** X17 at a second product view of session [s0], which is already
    counted. *)
Lemma funnel_counts_each_session_once_witness :
  exists db',
    event_create
      {| e_sessionId := "sess-1"; e_eventName := "product_view";
         e_createdAt := 5; e_timestamp := 5; e_pageUrl := None;
         e_eventData := None |}
      (store_with_session (num := float))
    = Returned db' tt
    /\ map visitors (getFunnelData 0 10 db') = [0; 1; 0; 0; 0]%Z.
Proof.
  eexists. split; [reflexivity|].
  pose proof (funnel_counts_each_session_once
                {| e_sessionId := "sess-1"; e_eventName := "product_view";
                   e_createdAt := 5; e_timestamp := 5; e_pageUrl := None;
                   e_eventData := None |}
                (store_with_session (num := float)) _ tt steps 0%Z 10%Z
                eq_refl) as _.
  vm_compute. reflexivity.
Defined.

(** ** The funnel in exact arithmetic *)

(** X19.  In exact arithmetic every reported conversion rate is at least 0.
    For a step after the first, when the first step has visitors, the rate
    is the step's visitors as a percentage of the first step's, and it is at
    most 100 exactly when the step has no more visitors than the first step;
    steps are counted independently, so it can exceed 100.  When the first
    step has no visitors the rate is 0. *)
Theorem funnel_rates_exact steps startDate endDate (db : Store R) i row :
  funnelFor steps startDate endDate db !! i = Some row ->
  let v0 := visitors_at (funnelFor steps startDate endDate db) 0 in
  (0 <= visitors row)%Z
  /\ (0 <= conversionRate row)%R
  /\ (i = 0%nat -> conversionRate row = 100%R)
  /\ ((0 < i)%nat -> (0 < v0)%Z ->
      (conversionRate row * IZR v0 = 100 * IZR (visitors row))%R
      /\ ((conversionRate row <= 100)%R <-> (visitors row <= v0)%Z))
  /\ ((0 < i)%nat -> v0 = 0%Z -> conversionRate row = 0%R).
Proof.
  intros Hrow v0. unfold v0, funnelFor in *.
  rewrite visitors_at_calculateRates.
  rewrite calculateRates_lookup in Hrow.
  destruct (funnelRows steps startDate endDate db !! i) as [row0|] eqn:Hrow0;
    [|done].
  injection Hrow as <-. cbn [visitors conversionRate].
  assert (Hv : (0 <= visitors row0)%Z).
  { apply list_elem_of_lookup_2 in Hrow0. unfold funnelRows in Hrow0.
    apply list_elem_of_fmap in Hrow0 as (? & -> & _). cbn. lia. }
  set (first := visitors_at (funnelRows steps startDate endDate db) 0).
  cbn [num_of_Z nmul ndiv R_Number].
  assert (Hrate : forall v : Z, (0 < v)%Z ->
            (0 <= IZR (visitors row0) / IZR v * 100)%R
            /\ (IZR (visitors row0) / IZR v * 100 * IZR v
                = 100 * IZR (visitors row0))%R
            /\ ((IZR (visitors row0) / IZR v * 100 <= 100)%R
                <-> (visitors row0 <= v)%Z)).
  { intros v Hpos. apply IZR_lt in Hpos. apply IZR_le in Hv.
    assert (Hq : (IZR (visitors row0) / IZR v * IZR v
                  = IZR (visitors row0))%R) by (field; lra).
    split; [|split].
    - apply Rmult_le_pos; [|lra]. unfold Rdiv.
      apply Rmult_le_pos; [lra|]. left. apply Rinv_0_lt_compat. lra.
    - nra.
    - split.
      + intros Hle. apply le_IZR. nra.
      + intros Hle. apply IZR_le in Hle.
        assert (IZR (visitors row0) / IZR v <= 1)%R; [|lra].
        apply (Rmult_le_reg_r (IZR v)); [lra|]. lra. }
  split; [done|]. split; [|split; [|split]].
  - destruct (i =? 0)%nat; [lra|].
    destruct (Z.ltb_spec 0 first); [by apply Hrate|lra].
  - by intros ->.
  - intros Hi Hfirst. destruct (Nat.eqb_spec i 0); [lia|].
    destruct (Z.ltb_spec 0 first); [|lia].
    destruct (Hrate first) as (_ & Hmul & Hiff); done.
  - intros Hi Hfirst. destruct (Nat.eqb_spec i 0); [lia|].
    destruct (Z.ltb_spec 0 first); [lia|done].
Qed.

(** X19 at the funnel of two product views and no landing view. *)
Lemma funnel_rates_exact_witness :
  exists row,
    funnelFor (num := R) steps 0 10 (store_of_events no_landing_events)
      !! 1%nat
    = Some row
    /\ (0 <= conversionRate row)%R.
Proof.
  eexists. split; [reflexivity|].
  apply (funnel_rates_exact steps 0 10 (store_of_events no_landing_events)
           1 _ eq_refl).
Defined.

(** ** Events that feed the funnel *)

Section FunnelFeeds.
Context {num : Type} `{Number num}.
Variable extractSessionId_checkout : ShopifyCheckout -> option string.
Variable JSON_stringify_checkout : ShopifyCheckout -> string.

(** X20.  A page view reaches the funnel by the time the server handles it,
    not by the timestamp the client sent: when [handlePageView] returns, the
    session counts for the [page_view] step of a window exactly when the
    clock reading lies in the window (or it counted already), so the first
    funnel step then has at least one visitor. *)
Theorem page_view_counted_by_arrival now (data : PageViewData num)
    (tdb tdb' : TrackingStore num) response startDate endDate :
  handlePageView now data tdb = TReturned tdb' response ->
  groupBy_sessionId "page_view" startDate endDate (main tdb')
  = (if decide (startDate <= now <= endDate)%Z
     then {[pv_sessionId data]}
          ∪ groupBy_sessionId "page_view" startDate endDate (main tdb)
     else groupBy_sessionId "page_view" startDate endDate (main tdb))
  /\ ((startDate <= now <= endDate)%Z ->
      (1 <= visitors_at (getFunnelData startDate endDate (main tdb')) 0)%Z).
Proof.
  unfold handlePageView. cbn [main landingPageEvent_create].
  destruct (event_create _ (main tdb)) as [db1 u|db1 e] eqn:Hcreate; [|done].
  intros [= <- _]. cbn [main].
  assert (Hgroup :
    groupBy_sessionId "page_view" startDate endDate db1
    = (if decide (startDate <= now <= endDate)%Z
       then {[pv_sessionId data]}
            ∪ groupBy_sessionId "page_view" startDate endDate (main tdb)
       else groupBy_sessionId "page_view" startDate endDate (main tdb))).
  { rewrite (groupBy_sessionId_event_create _ _ _ _ _ _ _ Hcreate).
    cbn [e_eventName e_createdAt e_sessionId].
    destruct (decide (startDate <= now <= endDate)%Z) as [Hin|Hout].
    - by rewrite decide_True by (split; [done|lia]).
    - rewrite decide_False; [done|]. intros (_ & ? & ?). apply Hout. lia. }
  split; [exact Hgroup|]. intros Hin.
  unfold getFunnelData, funnelFor.
  rewrite visitors_at_calculateRates, visitors_at_funnelRows.
  cbn [steps lookup list_lookup eventPattern]. rewrite Hgroup.
  rewrite decide_True by done.
  assert (size (groupBy_sessionId "page_view" startDate endDate (main tdb)
                ∖ {[pv_sessionId data]}) >= 0)%nat by lia.
  rewrite size_union_alt, size_singleton. lia.
Qed.

(** X21.  [checkouts/create] reaches the funnel only through a session: with
    no session id on the checkout nothing is stored; with a session id that
    names no session row the handler throws and nothing is stored; otherwise
    one [checkout_started] event is stored and the session counts for that
    step in every window that contains the clock reading. *)
Theorem checkout_started_needs_session now (checkout : ShopifyCheckout)
    (db : Store num) :
  let call :=
    handleCheckoutCreate extractSessionId_checkout JSON_stringify_checkout
      now checkout db in
  match extractSessionId_checkout checkout with
  | None => call = Returned db tt
  | Some sessionId =>
      if decide (sessionId = "") then call = Returned db tt
      else
        match sessions db !! sessionId with
        | None => call = Thrown db (ForeignKeyConstraintFailed "sessionId")
        | Some _ =>
            exists db',
              call = Returned db' tt
              /\ conversions db' = conversions db
              /\ sessions db' = sessions db
              /\ length (events db') = S (length (events db))
              /\ forall startDate endDate,
                   groupBy_sessionId "checkout_started" startDate endDate db'
                   = if decide (startDate <= now <= endDate)%Z
                     then {[sessionId]}
                          ∪ groupBy_sessionId "checkout_started" startDate
                              endDate db
                     else groupBy_sessionId "checkout_started" startDate
                            endDate db
        end
  end.
Proof.
  intros call. unfold call, handleCheckoutCreate.
  destruct (extractSessionId_checkout checkout) as [sessionId|]; [|done].
  destruct (decide (sessionId = "")); [done|].
  destruct (sessions db !! sessionId) as [session|] eqn:Hs.
  - destruct (event_create _ db) as [db1 u|db1 e] eqn:Hcreate.
    + destruct u. exists db1. split; [done|].
      match type of Hcreate with
      | event_create ?row _ = _ =>
          pose proof (event_create_spec row db) as Hspec
      end.
      rewrite Hcreate in Hspec.
      destruct Hspec as (_ & Hev & Hss & Hcs & _).
      split; [done|]. split; [done|].
      split; [rewrite Hev, length_app; simpl; lia|].
      intros startDate endDate.
      rewrite (groupBy_sessionId_event_create _ _ _ _ _ _ _ Hcreate).
      cbn [e_eventName e_createdAt e_sessionId].
      destruct (decide (startDate <= now <= endDate)%Z) as [Hin|Hout].
      * by rewrite decide_True by (split; [done|lia]).
      * rewrite decide_False; [done|]. intros (_ & ? & ?). apply Hout. lia.
    + unfold event_create in Hcreate. cbn [e_sessionId] in Hcreate.
      by rewrite Hs in Hcreate.
  - unfold event_create. cbn [e_sessionId]. by rewrite Hs.
Qed.

End FunnelFeeds.

(** X20 at a page view handled at time 5 whose client timestamp lies outside
    the window. *)
Lemma page_view_counted_by_arrival_witness :
  exists tdb',
    handlePageView 5 late_page_view
      {| main := store_with_session; landingPageEvents := [] |}
    = TReturned tdb' (Success None)
    /\ (1 <= visitors_at (getFunnelData 0 10 (main tdb')) 0)%Z.
Proof.
  eexists. split; [reflexivity|].
  destruct (page_view_counted_by_arrival 5%Z late_page_view
              {| main := store_with_session; landingPageEvents := [] |}
              _ _ 0%Z 10%Z eq_refl) as [_ Hcount].
  apply Hcount. lia.
Defined.

(** ** The real-time counters as rows are written *)

Section RealTimeFacts.
Context {num : Type} `{Number num}.
Variable extractSessionId : ShopifyOrder num -> option string.
Implicit Types (db : Store num).




(** X22.  The dashboard's "sessions in the last 30 minutes" counts a session
    by its first [session_start]: a repeated [session_start] of a known
    session never changes the count, and a new session adds one exactly when
    the clock reading is no more than 30 minutes before the time asked
    about. *)
Theorem new_sessions_counted_at_first_start t now data db :
  sessionsLast30Minutes t (handleSessionStart now data db)
  = match sessions db !! d_sessionId data with
    | Some _ => sessionsLast30Minutes t db
    | None =>
        if decide (t - 30 * 60 * 1000 <= now)%Z
        then S (sessionsLast30Minutes t db)
        else sessionsLast30Minutes t db
    end.
Proof.
  unfold sessionsLast30Minutes, handleSessionStart.
  set (P := fun kv : string * Session =>
              (t - 30 * 60 * 1000 <= s_createdAt kv.2)%Z).
  destruct (sessions db !! d_sessionId data) as [s|] eqn:Hs;
    cbn [sessions set_sessions].
  - destruct (decide (t - 30 * 60 * 1000 <= s_createdAt s)%Z) as [Hin|Hout].
    + rewrite map_filter_insert_True by done.
      apply map_size_insert_Some. exists s. by apply map_lookup_filter_Some.
    + rewrite map_filter_insert_False by done.
      rewrite map_filter_delete. f_equal. apply delete_id.
      apply map_lookup_filter_None. right.
      intros s' Hs'. rewrite Hs in Hs'. by injection Hs' as <-.
  - destruct (decide (t - 30 * 60 * 1000 <= now)%Z) as [Hin|Hout].
    + rewrite map_filter_insert_True by done.
      apply map_size_insert_None. apply map_lookup_filter_None. by left.
    + rewrite map_filter_insert_False by done.
      rewrite map_filter_delete. f_equal. apply delete_id.
      apply map_lookup_filter_None. by left.
Qed.


End RealTimeFacts.

(** ** Finding the session id of an order *)

Lemma append_cons c (s t : string) : String c s +:+ t = String c (s +:+ t).
Proof. reflexivity. Qed.

Lemma append_empty_r (s : string) : s +:+ "" = s.
Proof.
  induction s as [|c s IH]; [done|]. by rewrite append_cons, IH.
Qed.

Lemma strip_prefix_Some prefix s rest :
  strip_prefix prefix s = Some rest -> s = prefix +:+ rest.
Proof.
  revert s. induction prefix as [|a prefix IH]; intros s; simpl.
  - by intros [= ->].
  - destruct s as [|b s]; [done|].
    destruct (decide (a = b)) as [->|]; [|done].
    intros Hs. by rewrite append_cons, <- (IH _ Hs).
Qed.

Lemma strip_prefix_app prefix rest :
  strip_prefix prefix (prefix +:+ rest) = Some rest.
Proof.
  induction prefix as [|a prefix IH]; [done|].
  rewrite append_cons. simpl. by rewrite decide_True.
Qed.

Lemma take_id_split s :
  exists post, s = take_id s +:+ post /\ take_id post = "".
Proof.
  induction s as [|c s (post & Hs & Hpost)]; simpl.
  - by exists "".
  - destruct (is_id_char c) eqn:Hc.
    + exists post. by rewrite append_cons, <- Hs.
    + exists (String c s). simpl. by rewrite Hc.
Qed.

Lemma take_id_all s :
  Forall (fun c => is_id_char c = true)
         (String.list_ascii_of_string (take_id s)).
Proof.
  induction s as [|c s IH]; simpl; [constructor|].
  destruct (is_id_char c) eqn:Hc; simpl; by constructor.
Qed.

Lemma take_id_app id post :
  Forall (fun c => is_id_char c = true) (String.list_ascii_of_string id) ->
  take_id (id +:+ post) = id +:+ take_id post.
Proof.
  induction id as [|c id IH]; [done|].
  intros Hall. apply Forall_cons in Hall as [Hc Hall].
  rewrite !append_cons. simpl. by rewrite Hc, IH.
Qed.

Lemma match_id_after_unfold prefix s :
  match_id_after prefix s
  = match match_id_here prefix s with
    | Some id => Some id
    | None =>
        match s with
        | String _ s' => match_id_after prefix s'
        | EmptyString => None
        end
    end.
Proof. by destruct s. Qed.

Lemma match_id_here_Some prefix s id :
  match_id_here prefix s = Some id ->
  id <> ""
  /\ Forall (fun c => is_id_char c = true) (String.list_ascii_of_string id)
  /\ exists post, s = prefix +:+ id +:+ post /\ take_id post = "".
Proof.
  unfold match_id_here.
  destruct (strip_prefix prefix s) as [rest|] eqn:Hstrip; [|done].
  destruct (decide (take_id rest = "")); [done|]. intros [= <-].
  split; [done|]. split; [apply take_id_all|].
  destruct (take_id_split rest) as (post & Hrest & Hpost).
  exists post. split; [|done].
  apply strip_prefix_Some in Hstrip. by rewrite <- Hrest.
Qed.

Lemma match_id_after_Some prefix s id :
  match_id_after prefix s = Some id ->
  id <> ""
  /\ Forall (fun c => is_id_char c = true) (String.list_ascii_of_string id)
  /\ exists pre post, s = pre +:+ prefix +:+ id +:+ post /\ take_id post = "".
Proof.
  induction s as [|c s IH]; rewrite match_id_after_unfold.
  - destruct (match_id_here prefix "") as [id'|] eqn:Hhere; [|done].
    intros [= ->]. apply match_id_here_Some in Hhere
      as (Hne & Hall & post & Hs & Hpost).
    split; [done|]. split; [done|]. by exists "", post.
  - destruct (match_id_here prefix (String c s)) as [id'|] eqn:Hhere.
    + intros [= ->]. apply match_id_here_Some in Hhere
        as (Hne & Hall & post & Hs & Hpost).
      split; [done|]. split; [done|]. by exists "", post.
    + intros Hrest. destruct (IH Hrest) as (Hne & Hall & pre & post & Hs & Hp).
      split; [done|]. split; [done|].
      exists (String c pre), post. by rewrite append_cons, <- Hs.
Qed.

Lemma match_id_after_at_start prefix id post :
  id <> "" ->
  Forall (fun c => is_id_char c = true) (String.list_ascii_of_string id) ->
  take_id post = "" ->
  match_id_after prefix (prefix +:+ id +:+ post) = Some id.
Proof.
  intros Hne Hall Hpost. rewrite match_id_after_unfold.
  unfold match_id_here. rewrite strip_prefix_app.
  rewrite take_id_app, Hpost, append_empty_r by done.
  cbn zeta. by rewrite decide_False.
Qed.

(** X24.  A session id that [extractSessionId] returns occurs in the
    payload.  Either it is the value of an attribute named [session_id], or
    it is a non-empty run of the characters [a-zA-Z0-9_-] that follows the
    marker [session_id:] in the order note or the customer note, or the
    marker [session=] in the referring site, and that ends where the run
    ends. *)
Theorem extracted_session_id_occurs_in_payload order id :
  extractSessionId order = Some id ->
  (exists attrs attr,
      src_attributes order = Some attrs /\ attr ∈ attrs
      /\ attr_name attr = "session_id" /\ attr_value attr = Some id)
  \/ (id <> ""
      /\ Forall (fun c => is_id_char c = true)
                (String.list_ascii_of_string id)
      /\ exists text marker pre post,
           ((marker = "session_id:"
             /\ (src_note order = Some text
                 \/ src_customer_note order = Some text))
            \/ (marker = "session="
                /\ src_referring_site order = Some text))
           /\ text = pre +:+ marker +:+ id +:+ post
           /\ take_id post = "").
Proof.
  unfold extractSessionId.
  assert (Hfound : forall marker text,
            match_id_after marker text = Some id ->
            (marker = "session_id:"
             /\ (src_note order = Some text
                 \/ src_customer_note order = Some text))
            \/ (marker = "session=" /\ src_referring_site order = Some text) ->
            id <> ""
            /\ Forall (fun c => is_id_char c = true)
                      (String.list_ascii_of_string id)
            /\ exists text marker pre post,
                 ((marker = "session_id:"
                   /\ (src_note order = Some text
                       \/ src_customer_note order = Some text))
                  \/ (marker = "session="
                      /\ src_referring_site order = Some text))
                 /\ text = pre +:+ marker +:+ id +:+ post
                 /\ take_id post = "").
  { intros marker text Hmatch Hwhere.
    apply match_id_after_Some in Hmatch as (Hne & Hall & pre & post & Hs & Hp).
    split; [done|]. split; [done|]. by exists text, marker, pre, post. }
  destruct (src_note order ≫= match_id_after "session_id:")
    as [id1|] eqn:Hnote.
  { intros [= ->]. right.
    destruct (src_note order) as [text|]; [|done]. simpl in Hnote.
    apply (Hfound _ _ Hnote). left. split; [done|]. by left. }
  destruct (src_customer_note order ≫= match_id_after "session_id:")
    as [id2|] eqn:Hcustomer.
  { intros [= ->]. right.
    destruct (src_customer_note order) as [text|]; [|done].
    simpl in Hcustomer.
    apply (Hfound _ _ Hcustomer). left. split; [done|]. by right. }
  destruct (src_attributes order ≫= _) as [attr|] eqn:Hattr.
  { intros Hvalue. left.
    destruct (src_attributes order) as [attrs|]; [|done]. simpl in Hattr.
    apply List.find_some in Hattr as [Hin Hname].
    exists attrs, attr. split; [done|]. split; [by apply list_elem_of_In|].
    split; [|done]. by apply bool_decide_eq_true in Hname. }
  intros Hsite. right.
  destruct (src_referring_site order) as [text|]; [|done]. simpl in Hsite.
  apply (Hfound _ _ Hsite). by right.
Qed.

(** X24 at an order whose note names session [sess-1]. *)
Lemma extracted_session_id_occurs_in_payload_witness :
  extractSessionId noted_sources = Some "sess-1"
  /\ ((exists attrs attr,
          src_attributes noted_sources = Some attrs /\ attr ∈ attrs
          /\ attr_name attr = "session_id"
          /\ attr_value attr = Some "sess-1")
      \/ ("sess-1" <> ""
          /\ Forall (fun c => is_id_char c = true)
                    (String.list_ascii_of_string "sess-1")
          /\ exists text marker pre post,
               ((marker = "session_id:"
                 /\ (src_note noted_sources = Some text
                     \/ src_customer_note noted_sources = Some text))
                \/ (marker = "session="
                    /\ src_referring_site noted_sources = Some text))
               /\ text = pre +:+ marker +:+ "sess-1" +:+ post
               /\ take_id post = "")).
Proof.
  split; [reflexivity|].
  apply (extracted_session_id_occurs_in_payload noted_sources "sess-1").
  reflexivity.
Defined.

(** X25.  An order note that starts with [session_id:<id>], where [<id>] is a
    non-empty run of [a-zA-Z0-9_-] that ends the note or is followed by
    another character, yields [<id>], whatever the customer note, the
    attributes and the referring site say. *)
Theorem note_session_id_round_trip order id post :
  src_note order = Some ("session_id:" +:+ id +:+ post) ->
  id <> "" ->
  Forall (fun c => is_id_char c = true) (String.list_ascii_of_string id) ->
  take_id post = "" ->
  extractSessionId order = Some id.
Proof.
  intros Hnote Hne Hall Hpost. unfold extractSessionId. rewrite Hnote.
  cbn [mbind option_bind].
  by rewrite (match_id_after_at_start "session_id:" id post).
Qed.

(** X25 at the note [session_id:sess-1 (landing page)]. *)
Lemma note_session_id_round_trip_witness :
  src_note noted_sources = Some ("session_id:" +:+ "sess-1" +:+ " (landing page)")
  /\ extractSessionId noted_sources = Some "sess-1".
Proof.
  split; [reflexivity|].
  apply (note_session_id_round_trip noted_sources "sess-1" " (landing page)");
    [reflexivity|discriminate|repeat constructor|reflexivity].
Defined.

(** ** The request handlers of the webhook and tracking routes *)

Section RequestFacts.
Context {num : Type}.
Variable Json : Type.
Variable JSON_parse : string -> option Json.
Variable as_order : Json -> ShopifyOrder num.
Variable as_checkout : Json -> ShopifyCheckout.
Variable sources : Json -> SessionIdSources.
Variable JSON_stringify_checkout : ShopifyCheckout -> string.
Variable SHOPIFY_WEBHOOK_SECRET : option string.
Variable createHmac : string -> string -> string.
Implicit Types (db : Store num) (tdb : TrackingStore num).




(** X26.  The webhook handler acts only on a request whose signature header
    is the digest of the body under the configured, non-empty secret.  When
    verification answers false the header is not that digest and the answer
    is 401; when the comparison throws, which needs a header whose length
    differs from the digest's, the answer is 500.  In both cases the store is
    left as it was. *)
Theorem webhook_rejects_unverified now body hmacHeader topic db :
  match
    WebhookRoute.verifyWebhook SHOPIFY_WEBHOOK_SECRET createHmac body
      hmacHeader
  with
  | Some true =>
      exists secret,
        SHOPIFY_WEBHOOK_SECRET = Some secret /\ secret <> ""
        /\ hmacHeader = Some (createHmac secret body)
        /\ createHmac secret body <> ""
  | Some false =>
      WebhookRoute.POST Json JSON_parse as_order as_checkout sources
        JSON_stringify_checkout SHOPIFY_WEBHOOK_SECRET createHmac now body
        hmacHeader topic db
      = (db, Failure 401 "Unauthorized")
      /\ forall secret,
           SHOPIFY_WEBHOOK_SECRET = Some secret ->
           createHmac secret body <> "" ->
           secret <> "" ->
           hmacHeader <> Some (createHmac secret body)
  | None =>
      WebhookRoute.POST Json JSON_parse as_order as_checkout sources
        JSON_stringify_checkout SHOPIFY_WEBHOOK_SECRET createHmac now body
        hmacHeader topic db
      = (db, Failure 500 "Internal server error")
      /\ exists header secret,
           hmacHeader = Some header
           /\ SHOPIFY_WEBHOOK_SECRET = Some secret
           /\ String.length header <> String.length (createHmac secret body)
  end.
Proof.
  unfold WebhookRoute.POST.
  destruct (WebhookRoute.verifyWebhook SHOPIFY_WEBHOOK_SECRET createHmac
              body hmacHeader) as [[|]|] eqn:Hverify;
    unfold WebhookRoute.verifyWebhook in Hverify;
    destruct hmacHeader as [header|];
    destruct SHOPIFY_WEBHOOK_SECRET as [secret|]; try done;
    try (split; [done|]; intros secret' ? ? ?; done).
  - destruct (decide (header = "")); [done|].
    destruct (decide (secret = "")); [done|].
    unfold timingSafeEqual in Hverify.
    destruct (decide (_ = _)); [|done]. injection Hverify as Heq.
    apply bool_decide_eq_true in Heq. subst header. by exists secret.
  - split; [done|]. intros secret' [= <-] Hdigest Hsecret [= ->].
    rewrite decide_False in Hverify by done.
    rewrite decide_False in Hverify by done.
    unfold timingSafeEqual in Hverify.
    rewrite decide_True in Hverify by done.
    by rewrite bool_decide_eq_true_2 in Hverify.
  - destruct (decide (header = "")); [done|].
    destruct (decide (secret = "")); [done|].
    unfold timingSafeEqual in Hverify.
    destruct (decide (_ = _)) as [|Hlen]; [done|].
    split; [done|]. by exists header, secret.
Qed.




End RequestFacts.


